(** * Barrel Monitor API test suite: schemas, fixtures, validators, scenarios

    A shallow embedding of the TypeScript sources
    - [models/barrel.model.ts], [models/measurement.model.ts],
      [models/error-response.model.ts]
    - [helpers/barrel.helper.ts], [helpers/measurement.helper.ts]
    - [tests/barrels.spec.ts] and the scenarios of the measurements endpoint

    The suite runs on three third-party libraries (zod, faker, Playwright).
    The fragments of them that the sources call are modelled in the modules
    [JS], [expect], [z] and [faker] below, after their documented behaviour;
    the definitions of the repository itself follow the source text line by
    line. *)

From Stdlib Require Import ZArith Floats Uint63 Ascii.
From stdpp Require Import gmap strings list fin_maps pretty.

#[local] Open Scope string_scope.

(** ** JavaScript values *)

Module JS.

(** Runtime values as the suite meets them: what [response.json()] yields
    and what object literals build. Numbers are IEEE 754 binary64. *)
#[warnings="-register-all"] Inductive value : Type :=
  | VUndefined
  | VNull
  | VBool (b : bool)
  | VNum (x : float)
  | VStr (s : string)
  | VArr (l : list value)
  | VObj (o : gmap string value).

(** [!!v]: everything is truthy but undefined, null, false, 0, -0, NaN and
    the empty string. *)
Definition truthy (v : value) : bool :=
  match v with
  | VUndefined | VNull => false
  | VBool b => b
  | VNum x => negb (PrimFloat.is_zero x || PrimFloat.is_nan x)
  | VStr s => negb (String.eqb s "")
  | VArr _ | VObj _ => true
  end.

Definition nullish (v : value) : bool :=
  match v with
  | VUndefined | VNull => true
  | _ => false
  end.

(** The one-character string at position [i] of [s], as [s[i]] gives. *)
Definition char_at (i : nat) (s : string) : value :=
  match String.get i s with
  | Some c => VStr (String c EmptyString)
  | None => VUndefined
  end.

(** [v.k] for a key [k] that no built-in prototype defines (every named key
    of the suite is such a key: title, errors, id, Qr, Rfid, Nfc, BarrelId,
    DirtLevel, Weight). Only plain objects have such properties. *)
Definition field_of (k : string) (v : value) : value :=
  match v with
  | VObj o => default VUndefined (o !! k)
  | _ => VUndefined
  end.

(** [v[0]]: first element of an array, first character of a string, the
    property named "0" of an object. *)
Definition first_of (v : value) : value :=
  match v with
  | VArr l => default VUndefined (head l)
  | VStr s => char_at 0 s
  | VObj o => default VUndefined (o !! "0")
  | _ => VUndefined
  end.

(** [Object.is] on the values the suite compares with [toBe]: primitives
    by value (NaN equal to itself, 0 and -0 distinct); two objects or arrays
    are the same only by reference, and a freshly parsed body never is a
    literal of the test. *)
Definition same_value (a b : value) : bool :=
  match a, b with
  | VUndefined, VUndefined => true
  | VNull, VNull => true
  | VBool x, VBool y => Bool.eqb x y
  | VNum x, VNum y => PrimFloat.Leibniz.eqb x y
  | VStr x, VStr y => String.eqb x y
  | _, _ => false
  end.

(** [s.startsWith(p)] *)
Fixpoint starts_with (p s : string) : bool :=
  match p, s with
  | EmptyString, _ => true
  | String a p', String b s' => Ascii.eqb a b && starts_with p' s'
  | String _ _, EmptyString => false
  end.

(** [hay.includes(needle)] *)
Fixpoint includes (needle hay : string) : bool :=
  starts_with needle hay ||
  match hay with
  | EmptyString => false
  | String _ rest => includes needle rest
  end.

(** An object literal [{ k1: v1, ..., kn: vn }]; a later duplicate key
    overrides an earlier one. *)
Definition object (fields : list (string * value)) : value :=
  VObj (foldl (fun o kv => <[kv.1 := kv.2]> o) ∅ fields).


End JS.

Import JS.

(** ** Outcomes of test code: return or throw *)

Inductive failure : Type :=
  | ExpectationFailed (matcher : string)
  | TypeError
  | SyntaxError.

Inductive outcome (A : Type) : Type :=
  | Returns (a : A)
  | Throws (e : failure).

Arguments Returns {A} a.
Arguments Throws {A} e.

#[global] Instance outcome_ret : MRet outcome := fun A a => Returns a.

#[global] Instance outcome_bind : MBind outcome := fun A B f m =>
  match m with
  | Returns a => f a
  | Throws e => Throws e
  end.

Definition returned {A} (m : outcome A) : option A :=
  match m with
  | Returns a => Some a
  | Throws _ => None
  end.

(** [v.k] where the receiver may be null or undefined: a TypeError then. *)
Definition member (k : string) (v : value) : outcome value :=
  if nullish v then Throws TypeError else Returns (field_of k v).

(** [v[0]] and [v?.[0]]. *)
Definition first (v : value) : outcome value :=
  if nullish v then Throws TypeError else Returns (first_of v).

Definition first_opt (v : value) : value :=
  if nullish v then VUndefined else first_of v.

(** [v.k = x] on a plain object; the suite assigns to nothing else, and in
    a module (strict mode) assigning to a property of a primitive throws. *)
Definition assign (k : string) (x : value) (v : value) : outcome value :=
  match v with
  | VObj o => Returns (VObj (<[k := x]> o))
  | _ => Throws TypeError
  end.

(** [for (const x of xs) body(x)] *)
Fixpoint for_of {A} (xs : list A) (body : A -> outcome unit) : outcome unit :=
  match xs with
  | [] => Returns tt
  | x :: xs' => body x ;; for_of xs' body
  end.

(** ** Playwright's [expect] matchers *)

Module expect.

Definition toBeTruthy (received : value) : outcome unit :=
  if truthy received then Returns tt else Throws (ExpectationFailed "toBeTruthy").

(** [expect(received).toBe(expected)]: [Object.is]. *)
Definition toBe (received expected : value) : outcome unit :=
  if same_value received expected then Returns tt else Throws (ExpectationFailed "toBe").

(** [expect(response.status()).toBe(code)]: both are integers. *)
Definition statusToBe (received expected : Z) : outcome unit :=
  if Z.eqb received expected then Returns tt else Throws (ExpectationFailed "toBe").

(** [expect(received).toContain(expected)] on a header value: a substring
    test on a string; the matcher throws on undefined. *)
Definition toContain (received : option string) (expected : string) : outcome unit :=
  match received with
  | Some s =>
      if includes expected s then Returns tt else Throws (ExpectationFailed "toContain")
  | None => Throws (ExpectationFailed "toContain")
  end.

End expect.

(** ** Playwright's [APIResponse] *)

Record APIResponse : Type := {
  status : Z;
  (** [headers()]: header names in lower case *)
  headers : gmap string string;
  (** [json()]: the parsed body, or nothing when the body is not JSON *)
  body_json : option value;
}.

Definition json (response : APIResponse) : outcome value :=
  match body_json response with
  | Some v => Returns v
  | None => Throws SyntaxError
  end.

(** ** zod v4 schemas

    A schema is modelled by what the suite reads from it: whether
    [schema.safeParse(v).success] holds. *)

Module z.

Definition ZodType : Type := value -> bool.

Definition safeParse_success (schema : ZodType) (input : value) : bool := schema input.

(** [z.string()] *)
Definition string : ZodType := fun v =>
  match v with
  | VStr _ => true
  | _ => false
  end.

(** [schema.min(n)] on a string schema: at least [n] characters. *)
Definition min (n : nat) (schema : ZodType) : ZodType := fun v =>
  schema v &&
  match v with
  | VStr s => (n <=? String.length s)%nat
  | _ => true
  end.

Definition in_range (lo hi c : ascii) : bool :=
  (nat_of_ascii lo <=? nat_of_ascii c)%nat && (nat_of_ascii c <=? nat_of_ascii hi)%nat.

Definition hex : ascii -> bool := fun c =>
  in_range "0" "9" c || in_range "a" "f" c || in_range "A" "F" c.

Definition one_of (cs : String.string) : ascii -> bool := fun c =>
  existsb (Ascii.eqb c) (String.list_ascii_of_string cs).

(** A string matches a sequence of character classes when it has one
    character of each class, in order, and nothing more. *)
Fixpoint matches (classes : list (ascii -> bool)) (s : String.string) : bool :=
  match classes, s with
  | [], EmptyString => true
  | cls :: classes', String c s' => cls c && matches classes' s'
  | _, _ => false
  end.

(** The pattern of [z.uuid()], RFC 9562:
    [[0-9a-fA-F]{8}-[0-9a-fA-F]{4}-[1-8][0-9a-fA-F]{3}-[89abAB][0-9a-fA-F]{3}-[0-9a-fA-F]{12}],
    or the nil or the max UUID. *)
Definition uuid_classes : list (ascii -> bool) :=
  repeat hex 8 ++ [one_of "-"] ++ repeat hex 4 ++ [one_of "-"] ++
  [in_range "1" "8"] ++ repeat hex 3 ++ [one_of "-"] ++
  [one_of "89abAB"] ++ repeat hex 3 ++ [one_of "-"] ++ repeat hex 12.

Definition uuid_regex (s : String.string) : bool :=
  matches uuid_classes s ||
  String.eqb s "00000000-0000-0000-0000-000000000000" ||
  String.eqb s "ffffffff-ffff-ffff-ffff-ffffffffffff".

(** [z.uuid()] *)
Definition uuid : ZodType := fun v =>
  match v with
  | VStr s => uuid_regex s
  | _ => false
  end.

(** The largest binary32 value, 3.4028234663852886e38. *)
Definition float32_max : float := 0x1.fffffep+127%float.

(** [z.float32()]: a number that is neither NaN nor infinite and lies in
    the binary32 range. No sign check, no check that binary32 represents
    the number exactly. *)
Definition float32 : ZodType := fun v =>
  match v with
  | VNum x =>
      PrimFloat.is_finite x &&
      negb (x <? - float32_max)%float && negb (float32_max <? x)%float
  | _ => false
  end.

(** [schema.optional()] *)
Definition optional (schema : ZodType) : ZodType := fun v =>
  match v with
  | VUndefined => true
  | _ => schema v
  end.

(** [z.object(shape)]: a plain object each of whose shape keys holds a
    value its schema accepts (a missing key reads undefined); keys outside
    the shape are dropped without an issue. *)
Definition object (shape : list (String.string * ZodType)) : ZodType := fun v =>
  match v with
  | VObj o => forallb (fun entry => entry.2 (default VUndefined (o !! entry.1))) shape
  | _ => false
  end.

End z.

(** ** models/barrel.model.ts *)

Definition barrelObject : z.ZodType :=
  z.object [
    ("id", z.optional z.string);
    ("qr", z.min 1 z.string);
    ("rfid", z.min 1 z.string);
    ("nfc", z.min 1 z.string)
  ].

(** ** models/measurement.model.ts *)

Definition measurementObject : z.ZodType :=
  z.object [
    ("id", z.optional z.uuid);
    ("barrelId", z.uuid);
    ("dirtLevel", z.float32);
    ("weight", z.float32)
  ].

(** ** helpers/measurement.helper.ts: response validator and error checkers *)

Module MeasurementHelper.

Definition checkMeasurementResponseAndReturnBody (response : APIResponse) : outcome value :=
  expect.toContain (headers response !! "content-type") "application/json" ;;
  responseBody ← json response;
  expect.toBeTruthy responseBody ;;
  expect.toBeTruthy (VBool (z.safeParse_success measurementObject responseBody)) ;;
  mret responseBody.

Definition checkErrorResponse (response : value) : outcome unit :=
  let validationErrorMessage := "One or more validation errors occurred." in
  expect.toBeTruthy response ;;
  title ← member "title" response;
  expect.toBe title (VStr validationErrorMessage) ;;
  errors ← member "errors" response;
  expect.toBeTruthy errors.

Definition checkBarrelIdRequiredErrorResponse (response : value) : outcome unit :=
  let barrelIdRequiredErrorMessage := "The BarrelId field is required." in
  checkErrorResponse response ;;
  errors ← member "errors" response;
  BarrelId ← member "BarrelId" errors;
  expect.toBeTruthy BarrelId ;;
  message ← first BarrelId;
  expect.toBe message (VStr barrelIdRequiredErrorMessage).

Definition checkDirtLevelRequiredErrorResponse (response : value) : outcome unit :=
  let dirtLevelRequiredErrorMessage := "The Dirtlevel field is required." in
  checkErrorResponse response ;;
  errors ← member "errors" response;
  DirtLevel ← member "DirtLevel" errors;
  expect.toBeTruthy DirtLevel ;;
  message ← first DirtLevel;
  expect.toBe message (VStr dirtLevelRequiredErrorMessage).

Definition checkWeightRequiredErrorResponse (response : value) : outcome unit :=
  let weightRequiredErrorMessage := "The Weight field is required." in
  checkErrorResponse response ;;
  errors ← member "errors" response;
  Weight ← member "Weight" errors;
  expect.toBeTruthy Weight ;;
  message ← first Weight;
  expect.toBe message (VStr weightRequiredErrorMessage).

End MeasurementHelper.

(** ** helpers/barrel.helper.ts: response validator and error checkers *)

Module BarrelHelper.

Definition checkBarrelResponseAndReturnBody (response : APIResponse) : outcome value :=
  expect.toContain (headers response !! "content-type") "application/json" ;;
  responseBody ← json response;
  expect.toBeTruthy responseBody ;;
  expect.toBeTruthy (VBool (z.safeParse_success barrelObject responseBody)) ;;
  mret responseBody.

Definition checkErrorResponse (response : value) : outcome unit :=
  let validationErrorMessage := "One or more validation errors occurred." in
  expect.toBeTruthy response ;;
  title ← member "title" response;
  expect.toBe title (VStr validationErrorMessage) ;;
  errors ← member "errors" response;
  expect.toBeTruthy errors.

Definition checkQrRequiredErrorResponse (response : value) : outcome unit :=
  let qrRequiredErrorMessage := "The Qr field is required." in
  checkErrorResponse response ;;
  errors ← member "errors" response;
  Qr ← member "Qr" errors;
  expect.toBeTruthy Qr ;;
  expect.toBe (first_opt Qr) (VStr qrRequiredErrorMessage).

Definition checkRfidRequiredErrorResponse (response : value) : outcome unit :=
  let rfidRequiredErrorMessage := "The Rfid field is required." in
  checkErrorResponse response ;;
  errors ← member "errors" response;
  Rfid ← member "Rfid" errors;
  expect.toBeTruthy Rfid ;;
  expect.toBe (first_opt Rfid) (VStr rfidRequiredErrorMessage).

Definition checkNfcRequiredErrorResponse (response : value) : outcome unit :=
  let nfcRequiredErrorMessage := "The Nfc field is required." in
  checkErrorResponse response ;;
  errors ← member "errors" response;
  Nfc ← member "Nfc" errors;
  expect.toBeTruthy Nfc ;;
  expect.toBe (first_opt Nfc) (VStr nfcRequiredErrorMessage).

End BarrelHelper.

(** ** faker: the random data generators the fixtures call

    A faker instance owns a randomizer. Its future draws are modelled as a
    stream of natural numbers with a cursor, so that a generator is a function
    from the state before the call to a result and the state after it, and
    "for every call" reads "for every state". *)

Module faker.

Record state : Type := {
  (** the draw the randomizer gives at each position *)
  entropy : nat -> N;
  (** the position of the next draw *)
  cursor : nat;
  (** the reference date, milliseconds since the epoch *)
  now : N;
}.

Definition Gen (A : Type) : Type := state -> A * state.

Definition next : Gen N := fun st =>
  (entropy st (cursor st),
   {| entropy := entropy st; cursor := S (cursor st); now := now st |}).

(** [faker.number.int({ min, max })]: an integer between [min] and [max],
    both inclusive. *)
Definition int (min max : Z) : Gen Z := fun st =>
  let '(draw, st) := next st in
  ((min + Z.of_N draw mod (max - min + 1))%Z, st).

(** [array[i]] for a random position of a non-empty list of characters. *)
Definition arrayElement (chars : list ascii) : Gen ascii := fun st =>
  let '(i, st) := int 0 (Z.of_nat (length chars) - 1) st in
  (nth (Z.to_nat i) chars "000"%char, st).

(** [faker.string.fromCharacters(chars, length)] *)
Fixpoint fromCharacters (chars : list ascii) (length : nat) : Gen string := fun st =>
  match length with
  | O => (EmptyString, st)
  | S length' =>
      let '(c, st) := arrayElement chars st in
      let '(rest, st) := fromCharacters chars length' st in
      (String c rest, st)
  end.

Definition lower : list ascii := String.list_ascii_of_string "abcdefghijklmnopqrstuvwxyz".
Definition upper : list ascii := String.list_ascii_of_string "ABCDEFGHIJKLMNOPQRSTUVWXYZ".
Definition digits : list ascii := String.list_ascii_of_string "0123456789".
Definition CROCKFORDS_BASE32 : list ascii :=
  String.list_ascii_of_string "0123456789ABCDEFGHJKMNPQRSTVWXYZ".

(** [dateToBase32(date)]: ten Crockford digits, the lowest last. *)
Fixpoint dateToBase32 (len : nat) (value : N) (result : string) : string :=
  match len with
  | O => result
  | S len' =>
      let mod_ := (value mod 32)%N in
      dateToBase32 len' ((value - mod_) / 32)%N
        (String (nth (N.to_nat mod_) CROCKFORDS_BASE32 "000"%char) result)
  end.

(** An integer below 2^53 as the binary64 number of that value. *)
Definition number_of_Z (k : Z) : float := PrimFloat.of_uint63 (Uint63.of_Z k).

(** [faker.helpers.weightedArrayElement(array)] for a non-empty array
    [entry :: entries] of whole positive weights: one draw,
    [random = faker.number.float({ min: 0, max: total })], then the first
    value whose running weight exceeds [random], and the last value if none
    does. [random] is a real below [total] that is compared with whole numbers
    only, so its integral part decides, which is the draw as
    [faker.number.int] reads it. *)
Definition weightedArrayElement {A} (entry : Z * A) (entries : list (Z * A)) : Gen A :=
  fun st =>
  let array := entry :: entries in
  let total := foldl (fun acc weighted => (acc + weighted.1)%Z) 0%Z array in
  let '(random, st) := int 0 (total - 1) st in
  ((fix scan (current : Z) (rest : list (Z * A)) : A :=
      match rest with
      | [] => (List.last entries entry).2
      | (weight, value) :: rest' =>
          let current := (current + weight)%Z in
          if (random <? current)%Z then value else scan current rest'
      end) 0%Z array, st).

Module string.

(** [faker.string.alphanumeric(length)], mixed case: the digits, then the
    lower and the upper case letters. *)
Definition alphanumeric (length : nat) : Gen String.string :=
  fromCharacters (digits ++ lower ++ upper) length.

(** The loop of [faker.string.nanoid()]: while the result has fewer than 21
    characters, a generator is chosen by weight, 62 for
    [faker.string.alphanumeric(1)] and 2 for
    [faker.helpers.arrayElement(['_', '-'])], and what it gives is appended:
    two draws for each character. [fuel] bounds the turns of the loop; every
    turn appends one character, so 21 turns end it. *)
Fixpoint nanoid_loop (fuel : nat) (result : String.string) : Gen String.string := fun st =>
  match fuel with
  | O => (result, st)
  | S fuel' =>
      if (String.length result <? 21)%nat then
        let '(charGen, st) :=
          weightedArrayElement
            (62%Z, alphanumeric 1)
            [(2%Z, fun st => let '(c, st) := arrayElement ["_"; "-"]%char st in
                             (String c EmptyString, st))] st in
        let '(c, st) := charGen st in
        nanoid_loop fuel' (result +:+ c) st
      else (result, st)
  end.

(** [faker.string.nanoid()]: 21 characters of [A-Za-z0-9_-]. *)
Definition nanoid : Gen String.string := nanoid_loop 21 EmptyString.

(** [faker.string.ulid()]: the reference date in ten Crockford base32
    digits, then sixteen random ones. *)
Definition ulid : Gen String.string := fun st =>
  let time := dateToBase32 10 (now st) EmptyString in
  let '(random, st) := fromCharacters CROCKFORDS_BASE32 16 st in
  (time +:+ random, st).

(** [faker.string.alpha(length)]: letters of either case, the lower case
    ones first. *)
Definition alpha (length : nat) : Gen String.string :=
  fromCharacters (lower ++ upper) length.

End string.

Module number.

(** [faker.number.float({ min, max, fractionDigits })] for integral
    bounds: with [factor = 10 ** fractionDigits], an integer drawn between
    [min * factor] and [max * factor], divided by [factor]. *)
Definition float (min max : Z) (fractionDigits : nat) : Gen PrimFloat.float := fun st =>
  let factor := (10 ^ Z.of_nat fractionDigits)%Z in
  let '(int, st) := int (min * factor) (max * factor) st in
  ((number_of_Z int / number_of_Z factor)%float, st).

End number.

End faker.

(** ** Fixture generators *)

(** helpers/measurement.helper.ts *)
Definition prepareMeasurementObject (barrelId : string) : faker.Gen value := fun st =>
  let '(dirtLevel, st) := faker.number.float 1 95 2 st in
  let '(weight, st) := faker.number.float 100 200 1 st in
  (object [
     ("barrelId", VStr barrelId);
     ("dirtLevel", VNum dirtLevel);
     ("weight", VNum weight)
   ], st).

(** helpers/barrel.helper.ts *)
Definition prepareBarrelObject : faker.Gen value := fun st =>
  let '(qr, st) := faker.string.nanoid st in
  let '(rfid, st) := faker.string.ulid st in
  let '(nfc, st) := faker.string.alpha 20 st in
  (object [
     ("qr", VStr qr);
     ("rfid", VStr rfid);
     ("nfc", VStr nfc)
   ], st).

(** ** The service under test and the scenarios *)

Inductive Method : Type := GET | POST | PUT | PATCH | DELETE.

Record Request : Type := {
  method : Method;
  url : string;
  data : value;
}.

Definition barrelsEndpoint : string := "/barrels".
Definition measurementsEndpoint : string := "/measurements".

(** tests/barrels.spec.ts, 'Create multiple barrels concurrently':
    [Array.from({ length: 10 }, (_, i) => ({ qr: `concurrent_qr_${i + 1}`, ... }))] *)
Definition barrelPayloads : list value :=
  map (fun i : nat =>
         object [
           ("qr", VStr ("concurrent_qr_" +:+ pretty (i + 1)));
           ("rfid", VStr ("concurrent_rfid_" +:+ pretty (i + 1)));
           ("nfc", VStr ("concurrent_nfc_" +:+ pretty (i + 1)))
         ])
      (seq 0 10).

Section Scenarios.

(** The Barrel Monitor service is outside the repository: any state space
    and any request handler. *)
Context {World : Type}.
Variable serve : Request -> World -> APIResponse * World.

(** What a scenario runs against: the faker instance, the service, and a
    record of the requests the service has handled so far. *)
Record Fixtures : Type := {
  fk : faker.state;
  world : World;
  handled : list Request;
}.

Definition Test (A : Type) : Type := Fixtures -> outcome A * Fixtures.

#[local] Instance test_ret : MRet Test := fun A a fx => (Returns a, fx).

#[local] Instance test_bind : MBind Test := fun A B f m fx =>
  match m fx with
  | (Returns a, fx') => f a fx'
  | (Throws e, fx') => (Throws e, fx')
  end.

(** Synchronous test code: it returns or throws and touches no fixture. *)
Definition attempt {A} (m : outcome A) : Test A := fun fx => (m, fx).

(** A call into faker. *)
Definition draw {A} (g : faker.Gen A) : Test A := fun fx =>
  let '(a, st) := g (fk fx) in
  (Returns a, {| fk := st; world := world fx; handled := handled fx |}).

(** [await request.post(url, { data })] *)
Definition request_post (url : string) (data : value) : Test APIResponse := fun fx =>
  let req := {| method := POST; url := url; data := data |} in
  let '(response, w) := serve req (world fx) in
  (Returns response, {| fk := fk fx; world := w; handled := handled fx ++ [req] |}).

(** Requests started together are handled in an order the suite does not
    control: [schedule] lists the positions of the batch in the order in
    which the service handles them. The responses are kept by position. *)
Fixpoint post_scheduled (schedule : list nat) (url : string) (payloads : list value)
    : Test (gmap nat APIResponse) :=
  match schedule with
  | [] => mret ∅
  | i :: schedule' =>
      match payloads !! i with
      | Some payload =>
          response ← request_post url payload;
          responses ← post_scheduled schedule' url payloads;
          mret (<[i := response]> responses)
      | None => post_scheduled schedule' url payloads
      end
  end.

(** [await Promise.all(payloads.map((payload) => request.post(url, { data: payload })))]:
    resolves, once every request is answered, to the responses in the order
    of the payloads. *)
Definition Promise_all_post (schedule : list nat) (url : string) (payloads : list value)
    : Test (list APIResponse) :=
  responses ← post_scheduled schedule url payloads;
  mret (omap (fun i => responses !! i) (seq 0 (length payloads))).

(** *** tests/barrels.spec.ts *)

Definition test_Create_multiple_barrels_concurrently (schedule : list nat) : Test unit :=
  responses ← Promise_all_post schedule barrelsEndpoint barrelPayloads;
  attempt (for_of responses (fun res => expect.statusToBe (status res) 201)).




(** *** The measurements endpoint, negative scenarios; [barrel] is the body
    of the barrel that [beforeAll] created. *)

Definition test_Dirt_level_is_negative_number (barrel : value) : Test unit :=
  barrel_id ← attempt (member "id" barrel);
  response ← request_post measurementsEndpoint
    (object [
       ("barrelId", barrel_id);
       ("dirtLevel", VNum (-10)%float);
       ("weight", VNum 10%float)
     ]);
  attempt (
    expect.statusToBe (status response) 400 ;;
    body ← json response;
    MeasurementHelper.checkErrorResponse body ;;
    errors ← member "errors" body;
    DirtLevel ← member "DirtLevel" errors;
    expect.toBeTruthy DirtLevel ;;
    expect.toBeTruthy (first_opt DirtLevel) ;;
    expect.toBe (first_opt DirtLevel) (VStr "DirtLevel must be positive number")).

Definition test_Weight_is_negative_number (barrel : value) : Test unit :=
  barrel_id ← attempt (member "id" barrel);
  response ← request_post measurementsEndpoint
    (object [
       ("barrelId", barrel_id);
       ("dirtLevel", VNum 10%float);
       ("weight", VNum (-10)%float)
     ]);
  attempt (
    expect.statusToBe (status response) 400 ;;
    body ← json response;
    MeasurementHelper.checkErrorResponse body ;;
    errors ← member "errors" body;
    Weight ← member "Weight" errors;
    expect.toBeTruthy Weight ;;
    expect.toBe (first_opt Weight) (VStr "Weight must be positive number")).

End Scenarios.

(** * More of the suite

    The rest of the scenario code that can be embedded as it is written,
    with the parts of JavaScript, expect and faker that it calls. *)

(** ** Conversions and comparisons of JavaScript *)

Definition is_undefined (v : value) : bool :=
  match v with
  | VUndefined => true
  | _ => false
  end.

Section Conversions.

(** [String(x)] for a number [x]: the shortest decimal that reads back as
    [x]. The scenarios never format a number of their own; the algorithm is
    left open. *)
Variable number_to_string : float -> string.

(** [String(v)], the conversion inside a template literal [`${v}`]. *)
Fixpoint String_of (v : value) : string :=
  match v with
  | VUndefined => "undefined"
  | VNull => "null"
  | VBool true => "true"
  | VBool false => "false"
  | VNum x => number_to_string x
  | VStr s => s
  | VArr l => String.concat "," (map (fun e => if nullish e then "" else String_of e) l)
  | VObj _ => "[object Object]"
  end.

End Conversions.

(** [JSON.parse(JSON.stringify(v))]: what a JSON body carries of a value. A
    property whose value is undefined is left out, an undefined array element
    and a number that is not finite become null, -0 becomes 0. *)
Fixpoint JSON_body (v : value) : value :=
  match v with
  | VNum x =>
      if PrimFloat.is_finite x then (if PrimFloat.is_zero x then VNum 0%float else VNum x)
      else VNull
  | VArr l => VArr (map (fun e => if is_undefined e then VNull else JSON_body e) l)
  | VObj o => VObj (filter (fun kv => is_undefined kv.2 = false) (JSON_body <$> o))
  | _ => v
  end.

(** The recursive equality of [toEqual]: primitives by [Object.is], arrays
    element by element, objects property by property, a property whose value
    is undefined counting as absent. *)
Fixpoint equals (a b : value) {struct a} : bool :=
  match a, b with
  | VArr la, VArr lb =>
      (fix go (la lb : list value) {struct la} : bool :=
         match la, lb with
         | [], [] => true
         | x :: la', y :: lb' => equals x y && go la' lb'
         | _, _ => false
         end) la lb
  | VObj oa, VObj ob =>
      map_fold (fun k x acc =>
                  acc && (is_undefined x || equals x (default VUndefined (ob !! k))))
               true oa
      && map_fold (fun k y acc =>
                     acc && (is_undefined y ||
                             negb (is_undefined (default VUndefined (oa !! k)))))
                  true ob
  | VArr _, _ | VObj _, _ | _, VArr _ | _, VObj _ => false
  | _, _ => same_value a b
  end.

(** [expect(received).toEqual(expected)] *)
Definition toEqual (received expected : value) : outcome unit :=
  if equals received expected then Returns tt else Throws (ExpectationFailed "toEqual").

(** [expect(received).toBeFalsy()] *)
Definition toBeFalsy (received : value) : outcome unit :=
  if truthy received then Throws (ExpectationFailed "toBeFalsy") else Returns tt.

(** [expect(received).toContain(expected)] on a value read out of a parsed
    body: the matcher's own error on null and undefined, a substring test on
    a string, a membership test on an array, and on anything else a TypeError,
    since the matcher spreads what it received and a boolean, a number or a
    plain object is not iterable. *)
Definition toContainValue (received : value) (expected : string) : outcome unit :=
  match received with
  | VUndefined | VNull => Throws (ExpectationFailed "toContain")
  | VStr s => expect.toContain (Some s) expected
  | VArr l =>
      if existsb (fun item => same_value item (VStr expected)) l then Returns tt
      else Throws (ExpectationFailed "toContain")
  | VBool _ | VNum _ | VObj _ => Throws TypeError
  end.

(** ** faker.string.uuid *)

Definition hex_alphabet : list ascii := String.list_ascii_of_string "0123456789abcdef".

(** The digits of [n] in base 16, the lowest last, in front of [acc]. *)
Fixpoint hex_digits (fuel : nat) (n : N) (acc : string) : string :=
  match fuel with
  | O => acc
  | S fuel' =>
      if (n =? 0)%N then acc
      else hex_digits fuel' (n / 16)%N
             (String (nth (N.to_nat (n mod 16)%N) hex_alphabet "000"%char) acc)
  end.

(** [i.toString(16)] for an integer [i]. *)
Definition toString16 (i : Z) : string :=
  let n := Z.abs_N i in
  let digits := if (n =? 0)%N then "0" else hex_digits (N.to_nat (N.size n)) n "" in
  if (i <? 0)%Z then "-" +:+ digits else digits.

(** [faker.number.hex({ min, max })] *)
Definition faker_number_hex (min max : Z) : faker.Gen string := fun st =>
  let '(i, st) := faker.int min max st in
  (toString16 i, st).

(** [s.replaceAll(target, () => replacer())] for a one-character target: the
    replacer is called once for each occurrence, from left to right. *)
Fixpoint replaceAll (target : ascii) (replacer : faker.Gen string) (s : string)
    : faker.Gen string := fun st =>
  match s with
  | EmptyString => (EmptyString, st)
  | String c s' =>
      if Ascii.eqb c target then
        let '(replacement, st) := replacer st in
        let '(rest, st) := replaceAll target replacer s' st in
        (replacement +:+ rest, st)
      else
        let '(rest, st) := replaceAll target replacer s' st in
        (String c rest, st)
  end.

(** [faker.string.uuid()]: the pattern of a version 4 UUID with every x
    replaced by a random hexadecimal digit and then y by one of 8, 9, a, b. *)
Definition faker_string_uuid : faker.Gen string := fun st =>
  let '(s, st) :=
    replaceAll "x" (faker_number_hex 0 15) "xxxxxxxx-xxxx-4xxx-yxxx-xxxxxxxxxxxx" st in
  replaceAll "y" (faker_number_hex 8 11) s st.

(** ** More scenarios *)

Section MoreScenarios.

Context {World : Type}.
Variable serve : Request -> World -> APIResponse * World.
Variable number_to_string : float -> string.

#[local] Existing Instance test_ret.
#[local] Existing Instance test_bind.

(** A request of any method; [request.get] and [request.delete] carry no
    data. *)
Definition request_send (m : Method) (url : string) (data : value)
    : @Test World APIResponse := fun fx =>
  let req := {| method := m; url := url; data := data |} in
  let '(response, w) := serve req (world fx) in
  (Returns response, {| fk := fk fx; world := w; handled := handled fx ++ [req] |}).

Definition request_get (url : string) : @Test World APIResponse :=
  request_send GET url VUndefined.

Definition request_delete (url : string) : @Test World APIResponse :=
  request_send DELETE url VUndefined.

(** *** tests/barrels.spec.ts, positive scenarios *)

Definition test_Create_valid_barrel : @Test World unit :=
  barrel ← draw prepareBarrelObject;
  response ← request_post serve barrelsEndpoint barrel;
  attempt (
    expect.statusToBe (status response) 201 ;;
    responseBody ← BarrelHelper.checkBarrelResponseAndReturnBody response;
    id ← member "id" responseBody;
    expect.toBeTruthy id ;;
    qr ← member "qr" responseBody;
    expected ← member "qr" barrel;
    toEqual qr expected ;;
    rfid ← member "rfid" responseBody;
    expected ← member "rfid" barrel;
    toEqual rfid expected ;;
    nfc ← member "nfc" responseBody;
    expected ← member "nfc" barrel;
    toEqual nfc expected).

Definition test_Get_created_barrel : @Test World unit :=
  barrel ← draw prepareBarrelObject;
  ulid ← draw faker.string.ulid;
  barrel ← attempt (assign "id" (VStr ulid) barrel);
  _ ← request_post serve barrelsEndpoint barrel;
  id ← attempt (member "id" barrel);
  response ← request_get (barrelsEndpoint +:+ "/" +:+ String_of number_to_string id);
  attempt (
    expect.statusToBe (status response) 200 ;;
    responseBody ← BarrelHelper.checkBarrelResponseAndReturnBody response;
    id ← member "id" responseBody;
    expected ← member "id" barrel;
    toEqual id expected ;;
    qr ← member "qr" responseBody;
    expected ← member "qr" barrel;
    toEqual qr expected ;;
    rfid ← member "rfid" responseBody;
    expected ← member "rfid" barrel;
    toEqual rfid expected ;;
    nfc ← member "nfc" responseBody;
    expected ← member "nfc" barrel;
    toEqual nfc expected).

Definition test_Delete_barrel : @Test World unit :=
  barrel ← draw prepareBarrelObject;
  _ ← request_post serve barrelsEndpoint barrel;
  id ← attempt (member "id" barrel);
  response ← request_delete (barrelsEndpoint +:+ "/" +:+ String_of number_to_string id);
  attempt (expect.statusToBe (status response) 204) ;;
  id ← attempt (member "id" barrel);
  deleteCheck ← request_get (barrelsEndpoint +:+ "/" +:+ String_of number_to_string id);
  attempt (expect.statusToBe (status deleteCheck) 404).

Definition test_Extra_body_parameters_will_be_ignored : @Test World unit :=
  data ← draw prepareBarrelObject;
  data ← attempt (assign "meta" (VStr "data") data);
  response ← request_post serve barrelsEndpoint data;
  attempt (
    expect.statusToBe (status response) 201 ;;
    body ← BarrelHelper.checkBarrelResponseAndReturnBody response;
    expect.toBeTruthy body ;;
    id ← member "id" body;
    expect.toBeTruthy id ;;
    qr ← member "qr" body;
    expected ← member "qr" data;
    toEqual qr expected ;;
    nfc ← member "nfc" body;
    expected ← member "nfc" data;
    toEqual nfc expected ;;
    rfid ← member "rfid" body;
    expected ← member "rfid" data;
    toEqual rfid expected ;;
    meta ← member "meta" body;
    toBeFalsy meta).

Definition test_Create_valid_barrel_Minimal_Qr_lenght : @Test World unit :=
  barrel ← draw prepareBarrelObject;
  barrel ← attempt (assign "qr" (VStr "T") barrel);
  response ← request_post serve barrelsEndpoint barrel;
  attempt (expect.statusToBe (status response) 201).

Definition test_Create_valid_barrel_Minimal_Rfid_lenght : @Test World unit :=
  barrel ← draw prepareBarrelObject;
  barrel ← attempt (assign "rfid" (VStr "T") barrel);
  response ← request_post serve barrelsEndpoint barrel;
  attempt (expect.statusToBe (status response) 201).

Definition test_Create_valid_barrel_Minimal_Nfc_lenght : @Test World unit :=
  barrel ← draw prepareBarrelObject;
  barrel ← attempt (assign "nfc" (VStr "T") barrel);
  response ← request_post serve barrelsEndpoint barrel;
  attempt (expect.statusToBe (status response) 201).

Definition test_Input_will_be_sanitized : @Test World unit :=
  let data :=
    object [
      ("qr", VStr "'; DROP TABLE barrels;--");
      ("nfc", VStr "<script>alert('xss')</script>");
      ("rfid", VStr "&#x53;ELECT * FROM information_schema.tables")
    ] in
  response ← request_post serve barrelsEndpoint data;
  attempt (
    expect.statusToBe (status response) 201 ;;
    body ← BarrelHelper.checkBarrelResponseAndReturnBody response;
    qr ← member "qr" body;
    expected ← member "qr" data;
    toEqual qr expected ;;
    nfc ← member "nfc" body;
    expected ← member "nfc" data;
    toEqual nfc expected ;;
    rfid ← member "rfid" body;
    expected ← member "rfid" data;
    toEqual rfid expected).

(** *** tests/barrels.spec.ts, negative scenarios *)

Definition test_Put_on_base_endpoint : @Test World unit :=
  barrelData ← draw prepareBarrelObject;
  uuid ← draw faker_string_uuid;
  barrelData ← attempt (assign "id" (VStr uuid) barrelData);
  response ← request_send PUT barrelsEndpoint barrelData;
  attempt (expect.statusToBe (status response) 405).

Definition test_Put_with_id : @Test World unit :=
  barrelData ← draw prepareBarrelObject;
  uuid ← draw faker_string_uuid;
  barrelData ← attempt (assign "id" (VStr uuid) barrelData);
  id ← attempt (member "id" barrelData);
  response ← request_send PUT (barrelsEndpoint +:+ "/" +:+ String_of number_to_string id)
                barrelData;
  attempt (expect.statusToBe (status response) 405).

Definition test_Patch_on_base_endpoint : @Test World unit :=
  barrelData ← draw prepareBarrelObject;
  uuid ← draw faker_string_uuid;
  barrelData ← attempt (assign "id" (VStr uuid) barrelData);
  response ← request_send PATCH barrelsEndpoint barrelData;
  attempt (expect.statusToBe (status response) 405).

Definition test_Patch_with_id : @Test World unit :=
  barrelData ← draw prepareBarrelObject;
  uuid ← draw faker_string_uuid;
  barrelData ← attempt (assign "id" (VStr uuid) barrelData);
  id ← attempt (member "id" barrelData);
  response ← request_send PATCH (barrelsEndpoint +:+ "/" +:+ String_of number_to_string id)
                barrelData;
  attempt (expect.statusToBe (status response) 405).

Definition test_Post_ID_is_not_guid_format : @Test World unit :=
  barrelData ← draw prepareBarrelObject;
  barrelData ← attempt (assign "id" (VStr "not-guid") barrelData);
  response ← request_post serve barrelsEndpoint barrelData;
  attempt (
    expect.statusToBe (status response) 400 ;;
    responseBody ← json response;
    BarrelHelper.checkErrorResponse responseBody ;;
    errors ← member "errors" responseBody;
    barrel ← member "barrel" errors;
    expect.toBeTruthy barrel ;;
    message ← first barrel;
    expect.toBe message (VStr "The barrel field is required.") ;;
    entry ← member "$.id" errors;
    expect.toBeTruthy entry ;;
    message ← first entry;
    toContainValue message "The JSON value could not be converted to System.Guid").

Definition jsonInvalidValueStringMessage : string :=
  "The JSON value could not be converted to System.String".

Definition test_QR_attribute_is_missing : @Test World unit :=
  response ← request_post serve barrelsEndpoint
    (object [("rfid", VStr "filled"); ("nfc", VStr "filled")]);
  attempt (
    expect.statusToBe (status response) 400 ;;
    responseBody ← json response;
    BarrelHelper.checkQrRequiredErrorResponse responseBody).

Definition test_QR_attribute_is_undefined : @Test World unit :=
  response ← request_post serve barrelsEndpoint
    (object [("qr", VUndefined); ("rfid", VStr "filled"); ("nfc", VStr "filled")]);
  attempt (
    expect.statusToBe (status response) 400 ;;
    responseBody ← json response;
    BarrelHelper.checkQrRequiredErrorResponse responseBody).

Definition test_QR_attribute_is_a_number : @Test World unit :=
  response ← request_post serve barrelsEndpoint
    (object [("qr", VNum 123%float); ("rfid", VStr "filled"); ("nfc", VStr "filled")]);
  attempt (
    expect.statusToBe (status response) 400 ;;
    responseBody ← json response;
    BarrelHelper.checkErrorResponse responseBody ;;
    errors ← member "errors" responseBody;
    barrel ← member "barrel" errors;
    expect.toBeTruthy barrel ;;
    message ← first barrel;
    expect.toBe message (VStr "The barrel field is required.") ;;
    entry ← member "$.qr" errors;
    expect.toBeTruthy entry ;;
    message ← first entry;
    toContainValue message jsonInvalidValueStringMessage).

Definition test_RFID_attribute_is_missing : @Test World unit :=
  response ← request_post serve barrelsEndpoint
    (object [("qr", VStr "filled"); ("nfc", VStr "filled")]);
  attempt (
    expect.statusToBe (status response) 400 ;;
    responseBody ← json response;
    BarrelHelper.checkRfidRequiredErrorResponse responseBody).

Definition test_RFID_attribute_is_undefined : @Test World unit :=
  response ← request_post serve barrelsEndpoint
    (object [("qr", VStr "filled"); ("rfid", VUndefined); ("nfc", VStr "filled")]);
  attempt (
    expect.statusToBe (status response) 400 ;;
    responseBody ← json response;
    BarrelHelper.checkRfidRequiredErrorResponse responseBody).

Definition test_NFC_attribute_is_missing : @Test World unit :=
  response ← request_post serve barrelsEndpoint
    (object [("qr", VStr "filled"); ("rfid", VStr "filled")]);
  attempt (
    expect.statusToBe (status response) 400 ;;
    responseBody ← json response;
    BarrelHelper.checkNfcRequiredErrorResponse responseBody).

Definition test_NFC_attribute_is_undefined : @Test World unit :=
  response ← request_post serve barrelsEndpoint
    (object [("qr", VStr "filled"); ("rfid", VStr "filled"); ("nfc", VUndefined)]);
  attempt (
    expect.statusToBe (status response) 400 ;;
    responseBody ← json response;
    BarrelHelper.checkNfcRequiredErrorResponse responseBody).

(** *** The measurements endpoint; [barrelId] and [barrel] are what
    [beforeAll] leaves in the variables of the two groups. *)

Definition test_Create_valid_measurement (barrelId : string) : @Test World unit :=
  measurement ← draw (prepareMeasurementObject barrelId);
  response ← request_post serve measurementsEndpoint measurement;
  attempt (
    expect.statusToBe (status response) 201 ;;
    body ← MeasurementHelper.checkMeasurementResponseAndReturnBody response;
    id ← member "id" body;
    expect.toBeTruthy id ;;
    linked ← member "barrelId" body;
    expect.toBe linked (VStr barrelId) ;;
    weight ← member "weight" body;
    expected ← member "weight" measurement;
    expect.toBe weight expected ;;
    dirtLevel ← member "dirtLevel" body;
    expected ← member "dirtLevel" measurement;
    expect.toBe dirtLevel expected).

Definition test_Get_created_measurement (barrelId : string) : @Test World unit :=
  measurement ← draw (prepareMeasurementObject barrelId);
  createResponse ← request_post serve measurementsEndpoint measurement;
  createdMeasurementBody ← attempt (json createResponse);
  id ← attempt (member "id" createdMeasurementBody);
  getResponse ← request_get
    (measurementsEndpoint +:+ "/" +:+ String_of number_to_string id);
  attempt (
    body ← MeasurementHelper.checkMeasurementResponseAndReturnBody getResponse;
    id ← member "id" body;
    expected ← member "id" createdMeasurementBody;
    expect.toBe id expected ;;
    linked ← member "barrelId" body;
    expect.toBe linked (VStr barrelId) ;;
    weight ← member "weight" body;
    expected ← member "weight" measurement;
    expect.toBe weight expected ;;
    dirtLevel ← member "dirtLevel" body;
    expected ← member "dirtLevel" measurement;
    expect.toBe dirtLevel expected).

Definition test_Post_Barrel_does_not_exists : @Test World unit :=
  barrelId ← draw faker_string_uuid;
  _ ← request_delete ("/barrels/" +:+ String_of number_to_string (VStr barrelId));
  measurement ← draw (prepareMeasurementObject barrelId);
  response ← request_post serve measurementsEndpoint measurement;
  attempt (
    expect.statusToBe (status response) 404 ;;
    body ← json response;
    title ← member "title" body;
    expect.toBeTruthy title ;;
    expect.toBe title (VStr "Barrel was not found.")).

Definition test_Barrel_Id_is_missing : @Test World unit :=
  response ← request_post serve measurementsEndpoint
    (object [("dirtLevel", VNum 10%float); ("weight", VNum 10%float)]);
  attempt (
    expect.statusToBe (status response) 400 ;;
    body ← json response;
    MeasurementHelper.checkBarrelIdRequiredErrorResponse body).

Definition test_Barrel_Id_is_undefined : @Test World unit :=
  response ← request_post serve measurementsEndpoint
    (object [("barrelId", VUndefined); ("dirtLevel", VNum 10%float);
             ("weight", VNum 10%float)]);
  attempt (
    expect.statusToBe (status response) 400 ;;
    body ← json response;
    MeasurementHelper.checkBarrelIdRequiredErrorResponse body).

Definition test_Dirt_level_is_missing (barrel : value) : @Test World unit :=
  barrel_id ← attempt (member "id" barrel);
  response ← request_post serve measurementsEndpoint
    (object [("barrelId", barrel_id); ("weight", VNum 10%float)]);
  attempt (
    expect.statusToBe (status response) 400 ;;
    body ← json response;
    MeasurementHelper.checkDirtLevelRequiredErrorResponse body).

Definition test_Dirt_level_is_undefined (barrel : value) : @Test World unit :=
  barrel_id ← attempt (member "id" barrel);
  response ← request_post serve measurementsEndpoint
    (object [("barrelId", barrel_id); ("dirtLevel", VUndefined); ("weight", VNum 10%float)]);
  attempt (
    expect.statusToBe (status response) 400 ;;
    body ← json response;
    MeasurementHelper.checkDirtLevelRequiredErrorResponse body).

Definition test_Weight_is_missing (barrel : value) : @Test World unit :=
  barrel_id ← attempt (member "id" barrel);
  response ← request_post serve measurementsEndpoint
    (object [("barrelId", barrel_id); ("dirtLevel", VNum 10%float)]);
  attempt (
    expect.statusToBe (status response) 400 ;;
    body ← json response;
    MeasurementHelper.checkWeightRequiredErrorResponse body).

Definition test_Weight_is_undefined (barrel : value) : @Test World unit :=
  barrel_id ← attempt (member "id" barrel);
  response ← request_post serve measurementsEndpoint
    (object [("barrelId", barrel_id); ("dirtLevel", VNum 10%float); ("weight", VUndefined)]);
  attempt (
    expect.statusToBe (status response) 400 ;;
    body ← json response;
    MeasurementHelper.checkWeightRequiredErrorResponse body).

End MoreScenarios.

(** * Specification vocabulary

    The words of the properties below: what the documentation of the suite
    asks of a response, of an error body and of a value of each schema, and
    the inputs at which the properties are evaluated. *)

(** ** Responses and error bodies *)

(** What a response validator asks of a response, in the words of its
    documentation: a JSON content type, a non-empty body, a body of the
    schema. *)
Definition valid_response (schema : z.ZodType) (response : APIResponse) (body : value) : Prop :=
  (exists contentType pre post,
      headers response !! "content-type" = Some contentType /\
      contentType = pre +:+ "application/json" +:+ post) /\
  body_json response = Some body /\
  truthy body = true /\
  z.safeParse_success schema body = true.

(** The shape a required-field checker asks of an error body: the fixed
    title, an errors mapping, the field's key in it, and the fixed message as
    the first entry under the key. *)
Definition required_error (key message : string) (response : value) : Prop :=
  field_of "title" response = VStr "One or more validation errors occurred." /\
  truthy (field_of "errors" response) = true /\
  truthy (field_of key (field_of "errors" response)) = true /\
  first_of (field_of key (field_of "errors" response)) = VStr message.

(** A checker for [key] and [message] passes on exactly the bodies of that
    shape, and on none whose first message only contains [message]. *)
Definition checks_required (check : value -> outcome unit) (key message : string) : Prop :=
  (forall response, check response = Returns tt <-> required_error key message response) /\
  (forall response pre post,
      first_of (field_of key (field_of "errors" response)) = VStr (pre +:+ message +:+ post) ->
      pre +:+ post <> "" ->
      exists e, check response = Throws e).

(** A response that reports a field error: status 400 and an error body of
    the required-error shape for the key and the message. *)
Definition answered_with_error (response : APIResponse) (key message : string) : Prop :=
  status response = 400%Z /\
  exists body, body_json response = Some body /\ required_error key message body.

(** The request that [request.post(url, { data: payload })] sends. *)
Definition post_request (url : string) (payload : value) : Request :=
  {| method := POST; url := url; data := payload |}.

(** The response of the service, in the state the fixtures hold, to a POST. *)
Definition response_to_post {World : Type} (serve : Request -> World -> APIResponse * World)
    (url : string) (payload : value) (fx : @Fixtures World) : APIResponse :=
  (serve (post_request url payload) (world fx)).1.

(** The response that differs from [response] in its parsed body only. *)
Definition with_body (response : APIResponse) (body : value) : APIResponse :=
  {| status := status response; headers := headers response; body_json := Some body |}.

(** ** Values of the schemas *)

(** A number is in the range of [z.float32()] when it is finite and its
    magnitude is at most the largest binary32 value. *)
Definition within_float32 (x : float) : bool :=
  PrimFloat.is_finite x && (PrimFloat.abs x <=? z.float32_max)%float.

(** The kinds of value that the schemas tell apart. *)
Definition is_plain_object (v : value) : Prop := exists o, v = VObj o.
Definition is_string (v : value) : Prop := exists s, v = VStr s.
Definition is_nonempty_string (v : value) : Prop := exists s, v = VStr s /\ s <> "".
Definition is_uuid_string (v : value) : Prop := exists s, v = VStr s /\ z.uuid_regex s = true.
Definition is_float32_number (v : value) : Prop :=
  exists x, v = VNum x /\ within_float32 x = true.

(** The value an object literal holds under a key: that of the last field
    of that name. *)
Fixpoint lookup_fields (k : string) (fields : list (string * value)) : option value :=
  match fields with
  | [] => None
  | (k', v) :: rest =>
      match lookup_fields k rest with
      | Some v' => Some v'
      | None => if String.eqb k' k then Some v else None
      end
  end.

(** A measurement body with a valid barrelId, dirtLevel -10 and weight 10. *)
Definition negative_dirt_measurement : value :=
  object [
    ("barrelId", VStr "f47ac10b-58cc-4372-a567-0e02b2c3d479");
    ("dirtLevel", VNum (-10)%float);
    ("weight", VNum 10%float)
  ].

(** A measurement body with a valid barrelId, dirtLevel 2^130 and weight 10. *)
Definition huge_dirt_measurement : value :=
  object [
    ("barrelId", VStr "f47ac10b-58cc-4372-a567-0e02b2c3d479");
    ("dirtLevel", VNum 0x1p+130%float);
    ("weight", VNum 10%float)
  ].

(** ** Generated fixtures *)

(** What one call of [prepareBarrelObject] does to the faker instance: 78
    draws (42 for the nanoid, 16 for the ulid, 20 for the letters). *)
Definition after_barrel (st : faker.state) : faker.state :=
  {| faker.entropy := faker.entropy st;
     faker.cursor := faker.cursor st + 78;
     faker.now := faker.now st |}.

(** The character that a draw picks out of a list. *)
Definition pick (chars : list ascii) (draw : N) : ascii :=
  nth (Z.to_nat (Z.of_N draw mod Z.of_nat (length chars))) chars "000"%char.

(** The [n] characters that the draws from [position] on pick out of
    [chars], one draw each. *)
Definition characters_at (chars : list ascii) (entropy : nat -> N) (position n : nat)
    : string :=
  String.string_of_list_ascii (map (fun i => pick chars (entropy (position + i))) (seq 0 n)).

(** The character of a nanoid that the two draws at [position] give: the
    first says, 62 times in 64, an alphanumeric character, else one of _ and
    -; the second picks the character. *)
Definition nanoid_character (entropy : nat -> N) (position : nat) : ascii :=
  if (Z.of_N (entropy position) mod 64 <? 62)%Z
  then pick (faker.digits ++ faker.lower ++ faker.upper)%list (entropy (S position))
  else pick ["_"; "-"]%char (entropy (S position)).

(** The [n] characters of a nanoid that the draws from [position] on give. *)
Definition nanoid_at (entropy : nat -> N) (position n : nat) : string :=
  String.string_of_list_ascii (map (fun i => nanoid_character entropy (position + 2 * i)) (seq 0 n)).

(** The alphabet of a nanoid: [A-Za-z0-9_-]. *)
Definition nanoid_alphabet : list ascii :=
  (faker.digits ++ faker.lower ++ faker.upper ++ ["_"; "-"]%char)%list.

(** The three tags that [prepareBarrelObject] returns in a state of faker:
    the nanoid of draws 0 to 41, the ulid of the reference date and draws 42
    to 57, the letters of draws 58 to 77. *)
Definition generated_qr (st : faker.state) : string :=
  nanoid_at (faker.entropy st) (faker.cursor st) 21.

Definition generated_rfid (st : faker.state) : string :=
  faker.dateToBase32 10 (faker.now st) EmptyString +:+
  characters_at faker.CROCKFORDS_BASE32 (faker.entropy st) (faker.cursor st + 42) 16.

Definition generated_nfc (st : faker.state) : string :=
  characters_at (faker.lower ++ faker.upper)%list (faker.entropy st) (faker.cursor st + 58) 20.

(** The number [k / 100] is between 1 and 95 and in the binary32 range. *)
Definition dirtLevel_ok (k : Z) : bool :=
  let x := (faker.number_of_Z k / faker.number_of_Z 100)%float in
  (1 <=? x)%float && (x <=? 95)%float && z.float32 (VNum x).

(** The number [k / 10] is between 100 and 200 and in the binary32 range. *)
Definition weight_ok (k : Z) : bool :=
  let x := (faker.number_of_Z k / faker.number_of_Z 10)%float in
  (100 <=? x)%float && (x <=? 200)%float && z.float32 (VNum x).


(** ** Services and fixtures to run the scenarios against *)

(** A faker instance at its first draw, and fixtures that start from it. *)
Definition first_run : faker.state :=
  {| faker.entropy := fun i => N.of_nat (7919 * i + 13);
     faker.cursor := 0;
     faker.now := 1793577600000 |}.

Definition start : @Fixtures unit :=
  {| fk := first_run; world := tt; handled := [] |}.

(** A service that puts no bound on the length of a tag: it creates every
    barrel it is sent and answers 201 with the barrel and a fresh id. *)
Definition lenient_service (request : Request) (w : unit) : APIResponse * unit :=
  ({| status := 201;
      headers := {["content-type" := "application/json; charset=utf-8"]};
      body_json :=
        Some match data request with
             | VObj o => VObj (<["id" := VStr "f47ac10b-58cc-4372-a567-0e02b2c3d479"]> o)
             | v => v
             end |}, w).

(** A service that answers every measurement with the dirtLevel error. *)
Definition rejecting_service (request : Request) (w : unit) : APIResponse * unit :=
  ({| status := 400;
      headers := {["content-type" := "application/problem+json; charset=utf-8"]};
      body_json :=
        Some (object [("title", VStr "One or more validation errors occurred.");
                      ("status", VNum 400%float);
                      ("errors",
                       object [("DirtLevel", VArr [VStr "DirtLevel must be positive number"])])])
   |}, w).

(** ** Words of the further properties *)

(** The body repeats the three tags of the barrel that was sent. *)
Definition echoes_tags (body barrel : value) : Prop :=
  field_of "qr" body = field_of "qr" barrel /\
  field_of "rfid" body = field_of "rfid" barrel /\
  field_of "nfc" body = field_of "nfc" barrel.

(** The object [v] with the property [key] set to [x], as [v.key = x]
    leaves it. *)
Definition with_field (key : string) (x : value) (v : value) : value :=
  match v with
  | VObj o => VObj (<[key := x]> o)
  | _ => v
  end.

(** A request without data, as [request.get] and [request.delete] send. *)
Definition bare_request (m : Method) (url : string) : Request :=
  {| method := m; url := url; data := VUndefined |}.

(** A value that [toContain] finds the fragment in: a string that contains
    it, or an array that has it as an element. *)
Definition mentions (v : value) (fragment : string) : Prop :=
  (exists pre post, v = VStr (pre +:+ fragment +:+ post)) \/
  (exists l, v = VArr l /\ VStr fragment ∈ l).

(** An error body of a failed type conversion: the envelope, the fixed
    message that the barrel is required, and under the path of the field a
    first message that mentions the fragment. *)
Definition conversion_error (path fragment : string) (body : value) : Prop :=
  required_error "barrel" "The barrel field is required." body /\
  truthy (field_of path (field_of "errors" body)) = true /\
  mentions (first_of (field_of path (field_of "errors" body))) fragment.

(** A service that sees of a request what travels: the method, the address
    and the JSON text of the data. *)
Definition over_the_wire {World : Type} (handle : Request -> World -> APIResponse * World)
    : Request -> World -> APIResponse * World :=
  fun req =>
    handle {| method := method req; url := url req; data := JSON_body (data req) |}.

(** Two scenarios that end with the same verdict and leave the service in
    the same state. *)
Definition same_run {World : Type} (a b : @Test World unit) (fx : @Fixtures World) : Prop :=
  (a fx).1 = (b fx).1 /\ world (a fx).2 = world (b fx).2.

(** The property that travels under a key: the last one of that name,
    unless its value is undefined. *)
Definition sent_under (k : string) (fields : list (string * value)) : option value :=
  match lookup_fields k fields with
  | Some v => if is_undefined v then None else Some (JSON_body v)
  | None => None
  end.

(** What [replaceAll] makes of a class of characters: a character of the
    class [p] other than the target stays and is of the class [q]; the target,
    where [p] has it, gives way to one character of [q]. *)
Definition replaced_by (target : ascii) (replacer : faker.Gen string)
    (p q : ascii -> bool) : Prop :=
  forall c, p c = true ->
    if Ascii.eqb c target
    then forall st, exists d, (replacer st).1 = String d "" /\ q d = true
    else q c = true.

(** The pattern of [faker.string.uuid] once its x are replaced. *)
Definition uuid_with_y : list (ascii -> bool) :=
  let digit := z.one_of "0123456789abcdef" in
  repeat digit 8 ++ [Ascii.eqb "-"] ++ repeat digit 4 ++ [Ascii.eqb "-"] ++
  [Ascii.eqb "4"] ++ repeat digit 3 ++ [Ascii.eqb "-"] ++
  [Ascii.eqb "y"] ++ repeat digit 3 ++ [Ascii.eqb "-"] ++ repeat digit 12.

(** A scenario that sends the one request [req] and asks nothing of the
    answer but the status [code]. *)
Definition asks_only_status {World : Type} (serve : Request -> World -> APIResponse * World)
    (test : @Test World unit) (req : Request) (code : Z) (fx : @Fixtures World) : Prop :=
  ((test fx).1 = Returns tt <-> status (serve req (world fx)).1 = code) /\
  handled (test fx).2 = (handled fx ++ [req])%list.

(** A scenario that posts [payload] and passes exactly when the service
    refuses it with the field error [key], [message]. *)
Definition passes_when_refused {World : Type}
    (serve : Request -> World -> APIResponse * World) (test : @Test World unit)
    (address : string) (payload : value) (key message : string) (fx : @Fixtures World)
    : Prop :=
  (test fx).1 = Returns tt <->
  answered_with_error (response_to_post serve address payload fx) key message.

(** * Properties *)

(** ** The outcome monad and the matchers *)

Lemma bind_returns {A B} (m : outcome A) (f : A -> outcome B) (b : B) :
  m ≫= f = Returns b <-> exists a, m = Returns a /\ f a = Returns b.
Proof.
  destruct m as [a|e]; simpl; split.
  - intros H. exists a. split; [reflexivity | exact H].
  - intros (a' & Ha & Hf). injection Ha as ->. exact Hf.
  - discriminate.
  - intros (a' & Ha & _). discriminate.
Qed.

Lemma outcome_cases {A} (m : outcome A) :
  (exists a, m = Returns a) \/ (exists e, m = Throws e).
Proof. destruct m; eauto. Qed.

Lemma toBeTruthy_returns (v : value) (u : unit) :
  expect.toBeTruthy v = Returns u <-> truthy v = true.
Proof.
  unfold expect.toBeTruthy. destruct u, (truthy v); split; congruence.
Qed.

Lemma same_value_string (v : value) (s : string) :
  same_value v (VStr s) = true <-> v = VStr s.
Proof.
  destruct v; simpl; split; try congruence.
  - intros H. apply String.eqb_eq in H. congruence.
  - intros [= ->]. apply String.eqb_refl.
Qed.

Lemma toBe_string_returns (v : value) (s : string) (u : unit) :
  expect.toBe v (VStr s) = Returns u <-> v = VStr s.
Proof.
  unfold expect.toBe. rewrite <- same_value_string.
  destruct u, (same_value v (VStr s)); split; congruence.
Qed.

Lemma statusToBe_returns (received expected : Z) (u : unit) :
  expect.statusToBe received expected = Returns u <-> received = expected.
Proof.
  unfold expect.statusToBe. destruct u, (Z.eqb_spec received expected); split; congruence.
Qed.

Lemma truthy_not_nullish (v : value) : truthy v = true -> nullish v = false.
Proof. destruct v; simpl; congruence. Qed.

Lemma member_returns (k : string) (v a : value) :
  member k v = Returns a <-> nullish v = false /\ a = field_of k v.
Proof.
  unfold member. destruct (nullish v); split; try congruence.
  - intros [? _]. discriminate.
  - intros [= <-]. auto.
  - intros [_ ->]. reflexivity.
Qed.

(** [starts_with] and [includes] against concatenation. *)
Lemma starts_with_append (p s : string) :
  starts_with p s = true <-> exists post, s = p +:+ post.
Proof.
  revert s. induction p as [|a p IH]; intros s; simpl.
  - split; [intros _; exists s; reflexivity | intros _; reflexivity].
  - destruct s as [|b s].
    + split; [discriminate | intros [post H]; discriminate].
    + rewrite andb_true_iff, IH, Ascii.eqb_eq. split.
      * intros [-> [post ->]]. exists post. reflexivity.
      * intros [post [= -> ->]]. split; [reflexivity | exists post; reflexivity].
Qed.

Lemma includes_spec (needle hay : string) :
  includes needle hay = true <-> exists pre post, hay = pre +:+ needle +:+ post.
Proof.
  induction hay as [|c hay IH]; simpl.
  - rewrite orb_false_r, starts_with_append. split.
    + intros [post H]. exists EmptyString, post. exact H.
    + intros ([|c pre] & post & H); [exists post; exact H | discriminate].
  - rewrite orb_true_iff, starts_with_append, IH. split.
    + intros [[post H] | (pre & post & H)].
      * exists EmptyString, post. exact H.
      * exists (String c pre), post. rewrite H. reflexivity.
    + intros ([|c' pre] & post & H).
      * left. exists post. exact H.
      * right. exists pre, post.
        change (String c hay = String c' (pre +:+ needle +:+ post)) in H. congruence.
Qed.

Lemma toContain_returns (received : option string) (expected : string) (u : unit) :
  expect.toContain received expected = Returns u <->
  exists s, received = Some s /\ includes expected s = true.
Proof.
  unfold expect.toContain. destruct u, received as [s|].
  - destruct (includes expected s) eqn:E; split.
    + intros _. eauto.
    + reflexivity.
    + discriminate.
    + intros (s' & [= <-] & H). congruence.
  - split; [discriminate | intros (s & H & _); discriminate].
Qed.

(** ** Response validators *)

Lemma check_response_returns (schema : z.ZodType) (response : APIResponse) (body : value) :
  (expect.toContain (headers response !! "content-type") "application/json" ;;
   responseBody ← json response;
   expect.toBeTruthy responseBody ;;
   expect.toBeTruthy (VBool (z.safeParse_success schema responseBody)) ;;
   mret responseBody) = Returns body
  <-> valid_response schema response body.
Proof.
  unfold valid_response.
  repeat setoid_rewrite bind_returns.
  setoid_rewrite toContain_returns. setoid_rewrite toBeTruthy_returns.
  setoid_rewrite includes_spec.
  unfold json. simpl. split.
  - intros (_ & (ct & Hct & pre & post & Hinc) & b & Hjson & _ & Htruthy & _ & Hschema & Hret).
    destruct (body_json response) as [b'|]; [|discriminate].
    injection Hjson as ->. injection Hret as ->.
    repeat split; eauto.
  - intros ((ct & pre & post & Hct & Hinc) & Hjson & Htruthy & Hschema).
    exists tt. split; [eauto|]. exists body. rewrite Hjson.
    split; [reflexivity|]. exists tt. split; [exact Htruthy|].
    exists tt. split; [exact Hschema | reflexivity].
Qed.

(** C2: each response validator returns the parsed body exactly when the
    content-type header contains application/json, the parsed body is truthy
    and the body passes the schema (barrelObject, measurementObject); in every
    other case it throws, which fails the test, and returns nothing. *)
Theorem C2_response_validators (response : APIResponse) :
  (forall body,
      BarrelHelper.checkBarrelResponseAndReturnBody response = Returns body
      <-> valid_response barrelObject response body) /\
  (forall body,
      MeasurementHelper.checkMeasurementResponseAndReturnBody response = Returns body
      <-> valid_response measurementObject response body) /\
  ((exists body, valid_response barrelObject response body) \/
   (exists e, BarrelHelper.checkBarrelResponseAndReturnBody response = Throws e)) /\
  ((exists body, valid_response measurementObject response body) \/
   (exists e, MeasurementHelper.checkMeasurementResponseAndReturnBody response = Throws e)).
Proof.
  split; [|split; [|split]].
  - intros body. apply check_response_returns.
  - intros body. apply check_response_returns.
  - destruct (outcome_cases (BarrelHelper.checkBarrelResponseAndReturnBody response))
      as [[body H]|He]; [left | right; exact He].
    exists body. apply (proj1 (check_response_returns _ _ _)). exact H.
  - destruct (outcome_cases (MeasurementHelper.checkMeasurementResponseAndReturnBody response))
      as [[body H]|He]; [left | right; exact He].
    exists body. apply (proj1 (check_response_returns _ _ _)). exact H.
Qed.

(** ** Error-shape validators *)

Lemma field_of_truthy (k : string) (v : value) :
  truthy (field_of k v) = true -> truthy v = true.
Proof. destruct v; simpl; congruence. Qed.

Lemma envelope_returns (response : value) (u : unit) :
  (expect.toBeTruthy response ;;
   title ← member "title" response;
   expect.toBe title (VStr "One or more validation errors occurred.") ;;
   errors ← member "errors" response;
   expect.toBeTruthy errors) = Returns u
  <-> field_of "title" response = VStr "One or more validation errors occurred." /\
      truthy (field_of "errors" response) = true.
Proof.
  repeat setoid_rewrite bind_returns.
  setoid_rewrite toBeTruthy_returns. setoid_rewrite toBe_string_returns.
  setoid_rewrite member_returns. split.
  - intros (_ & _ & title & [_ ->] & _ & Htitle & errors & [_ ->] & Herrors). auto.
  - intros [Htitle Herrors].
    assert (Hresponse : truthy response = true) by (eapply field_of_truthy; eauto).
    pose proof (truthy_not_nullish _ Hresponse) as Hnn.
    exists tt. split; [exact Hresponse|]. eexists. split; [split; [exact Hnn | reflexivity]|].
    exists tt. split; [exact Htitle|]. eexists. split; [split; [exact Hnn | reflexivity]|].
    exact Herrors.
Qed.

Lemma first_opt_truthy (v : value) : truthy v = true -> first_opt v = first_of v.
Proof. intros H. unfold first_opt. rewrite (truthy_not_nullish _ H). reflexivity. Qed.

Lemma required_by_index (key message : string) (response : value) :
  (MeasurementHelper.checkErrorResponse response ;;
   errors ← member "errors" response;
   entry ← member key errors;
   expect.toBeTruthy entry ;;
   message' ← first entry;
   expect.toBe message' (VStr message)) = Returns tt
  <-> required_error key message response.
Proof.
  unfold MeasurementHelper.checkErrorResponse, required_error.
  rewrite bind_returns. setoid_rewrite envelope_returns.
  repeat setoid_rewrite bind_returns. setoid_rewrite member_returns.
  setoid_rewrite toBeTruthy_returns. setoid_rewrite toBe_string_returns.
  unfold first. split.
  - intros (_ & [Htitle Herrors] & errors & [_ ->] & entry & [_ ->] & _ & Hentry & m & Hm & ->).
    rewrite (truthy_not_nullish _ Hentry) in Hm. injection Hm as Hm. auto.
  - intros (Htitle & Herrors & Hentry & Hfirst).
    pose proof (truthy_not_nullish _ Herrors) as Hnn.
    pose proof (truthy_not_nullish _ (field_of_truthy _ _ Herrors)) as Hnn'.
    exists tt. split; [auto|]. eexists. split; [split; [exact Hnn' | reflexivity]|].
    eexists. split; [split; [exact Hnn | reflexivity]|].
    exists tt. split; [exact Hentry|].
    rewrite (truthy_not_nullish _ Hentry). eexists. split; [reflexivity | exact Hfirst].
Qed.

Lemma required_by_optional_index (key message : string) (response : value) :
  (BarrelHelper.checkErrorResponse response ;;
   errors ← member "errors" response;
   entry ← member key errors;
   expect.toBeTruthy entry ;;
   expect.toBe (first_opt entry) (VStr message)) = Returns tt
  <-> required_error key message response.
Proof.
  unfold BarrelHelper.checkErrorResponse, required_error.
  rewrite bind_returns. setoid_rewrite envelope_returns.
  repeat setoid_rewrite bind_returns. setoid_rewrite member_returns.
  setoid_rewrite toBeTruthy_returns. setoid_rewrite toBe_string_returns.
  split.
  - intros (_ & [Htitle Herrors] & errors & [_ ->] & entry & [_ ->] & _ & Hentry & Hm).
    rewrite (first_opt_truthy _ Hentry) in Hm. auto.
  - intros (Htitle & Herrors & Hentry & Hfirst).
    pose proof (truthy_not_nullish _ Herrors) as Hnn.
    pose proof (truthy_not_nullish _ (field_of_truthy _ _ Herrors)) as Hnn'.
    exists tt. split; [auto|]. eexists. split; [split; [exact Hnn' | reflexivity]|].
    eexists. split; [split; [exact Hnn | reflexivity]|].
    exists tt. split; [exact Hentry|].
    rewrite (first_opt_truthy _ Hentry). exact Hfirst.
Qed.

Lemma string_length_append (a b : string) :
  String.length (a +:+ b) = String.length a + String.length b.
Proof. induction a as [|c a IH]; [reflexivity|]. cbn. rewrite <- IH. reflexivity. Qed.

Lemma string_length_zero (a : string) : String.length a = 0 -> a = "".
Proof. destruct a; [reflexivity | discriminate]. Qed.

Lemma superstring_differs (message pre post : string) :
  pre +:+ post <> "" -> pre +:+ message +:+ post <> message.
Proof.
  intros Hne Heq. apply Hne.
  apply (f_equal String.length) in Heq.
  rewrite !string_length_append in Heq.
  assert (String.length pre = 0) as Hpre by lia.
  assert (String.length post = 0) as Hpost by lia.
  rewrite (string_length_zero _ Hpre), (string_length_zero _ Hpost). reflexivity.
Qed.

Lemma checks_required_intro (check : value -> outcome unit) (key message : string) :
  (forall response, check response = Returns tt <-> required_error key message response) ->
  checks_required check key message.
Proof.
  intros Hiff. split; [exact Hiff|].
  intros response pre post Hfirst Hne.
  destruct (outcome_cases (check response)) as [[[] H]|He]; [|exact He].
  apply Hiff in H. destruct H as (_ & _ & _ & H).
  rewrite Hfirst in H. injection H as H.
  exfalso. exact (superstring_differs _ _ _ Hne H).
Qed.

(** C5: each of the six required-field checkers passes exactly when the
    body's title is the fixed validation message, its errors mapping is
    present, the checker's key is present in it and the first message under
    the key equals the checker's fixed message; a first message that only
    contains the fixed message makes the checker throw. *)
Theorem C5_required_field_checkers :
  checks_required BarrelHelper.checkQrRequiredErrorResponse
    "Qr" "The Qr field is required." /\
  checks_required BarrelHelper.checkRfidRequiredErrorResponse
    "Rfid" "The Rfid field is required." /\
  checks_required BarrelHelper.checkNfcRequiredErrorResponse
    "Nfc" "The Nfc field is required." /\
  checks_required MeasurementHelper.checkBarrelIdRequiredErrorResponse
    "BarrelId" "The BarrelId field is required." /\
  checks_required MeasurementHelper.checkDirtLevelRequiredErrorResponse
    "DirtLevel" "The Dirtlevel field is required." /\
  checks_required MeasurementHelper.checkWeightRequiredErrorResponse
    "Weight" "The Weight field is required.".
Proof.
  refine (conj _ (conj _ (conj _ (conj _ (conj _ _)))));
    apply checks_required_intro; intros response.
  - apply required_by_optional_index.
  - apply required_by_optional_index.
  - apply required_by_optional_index.
  - apply required_by_index.
  - apply required_by_index.
  - apply required_by_index.
Qed.

(** ** Binary64 numbers against their specification *)

Lemma SFcompare_refl (X : spec_float) :
  X <> S754_nan -> SFcompare X X = Some Eq.
Proof.
  destruct X as [s|s| |s m e]; intros H; try congruence; destruct s; simpl;
    try reflexivity; rewrite Z.compare_refl, Pos.compare_cont_refl; reflexivity.
Qed.

Lemma is_nan_spec (x : float) :
  PrimFloat.is_nan x = match Prim2SF x with S754_nan => true | _ => false end.
Proof.
  unfold PrimFloat.is_nan. rewrite FloatAxioms.eqb_spec. unfold SFeqb.
  destruct (Prim2SF x) as [s|s| |s m e] eqn:E; try reflexivity;
    rewrite SFcompare_refl by congruence; reflexivity.
Qed.

Lemma Prim2SF_infinity : Prim2SF infinity = S754_infinity false.
Proof. reflexivity. Qed.

Lemma is_infinity_spec (x : float) :
  PrimFloat.is_infinity x = match Prim2SF x with S754_infinity _ => true | _ => false end.
Proof.
  unfold PrimFloat.is_infinity. rewrite FloatAxioms.eqb_spec, abs_spec, Prim2SF_infinity.
  destruct (Prim2SF x) as [s|s| |s m e]; reflexivity.
Qed.

Lemma is_finite_spec (x : float) :
  PrimFloat.is_finite x =
  match Prim2SF x with S754_nan | S754_infinity _ => false | _ => true end.
Proof.
  unfold PrimFloat.is_finite. rewrite is_nan_spec, is_infinity_spec.
  destruct (Prim2SF x); reflexivity.
Qed.

Lemma within_magnitude (X : spec_float) (m0 : positive) (e0 : Z) :
  X <> S754_nan ->
  negb (SFltb X (S754_finite true m0 e0)) && negb (SFltb (S754_finite false m0 e0) X) =
  SFleb (SFabs X) (S754_finite false m0 e0).
Proof.
  intros H. destruct X as [s|s| |s m e]; try congruence.
  - destruct s; reflexivity.
  - destruct s; reflexivity.
  - unfold SFltb, SFleb, SFabs, SFcompare. destruct s.
    + destruct (e ?= e0)%Z; try reflexivity.
      destruct (Pos.compare_cont Eq m m0); reflexivity.
    + rewrite (Z.compare_antisym e e0).
      change (Pos.compare_cont Eq m0 m) with (Pos.compare_cont (CompOpp Eq) m0 m).
      rewrite <- (Pos.compare_cont_antisym m m0 Eq).
      destruct (e ?= e0)%Z; try reflexivity. simpl.
      destruct (Pos.compare_cont Eq m m0); reflexivity.
Qed.

Lemma float32_number (x : float) : z.float32 (VNum x) = within_float32 x.
Proof.
  unfold z.float32, within_float32.
  rewrite is_finite_spec, !FloatAxioms.ltb_spec, FloatAxioms.leb_spec, FloatAxioms.abs_spec.
  destruct (Prim2SF x) as [s|s| |s m e] eqn:E; try reflexivity.
  rewrite <- andb_assoc. f_equal.
  replace (Prim2SF (- z.float32_max)) with (S754_finite true 9007198717870080 75) by reflexivity.
  replace (Prim2SF z.float32_max) with (S754_finite false 9007198717870080 75) by reflexivity.
  apply within_magnitude. congruence.
Qed.

Lemma abs_opp (x : float) : PrimFloat.abs (- x) = PrimFloat.abs x.
Proof.
  apply Prim2SF_inj. rewrite !FloatAxioms.abs_spec, FloatAxioms.opp_spec.
  destruct (Prim2SF x); reflexivity.
Qed.

Lemma is_finite_opp (x : float) : PrimFloat.is_finite (- x) = PrimFloat.is_finite x.
Proof.
  rewrite !is_finite_spec, FloatAxioms.opp_spec. destruct (Prim2SF x); reflexivity.
Qed.

Lemma within_float32_opp (x : float) : within_float32 (- x) = within_float32 x.
Proof. unfold within_float32. rewrite abs_opp, is_finite_opp. reflexivity. Qed.

(** ** Object literals *)

Lemma fields_lookup (fields : list (string * value)) (m : gmap string value) (k : string) :
  foldl (fun o kv => <[kv.1 := kv.2]> o) m fields !! k =
  match lookup_fields k fields with
  | Some v => Some v
  | None => m !! k
  end.
Proof.
  revert m. induction fields as [|[k' v] rest IH]; intros m; [reflexivity|].
  cbn [foldl lookup_fields fst snd]. rewrite IH.
  destruct (lookup_fields k rest); [reflexivity|].
  destruct (String.eqb_spec k' k) as [->|Hne].
  - apply lookup_insert_eq.
  - apply lookup_insert_ne. exact Hne.
Qed.

Lemma fields_dom (fields : list (string * value)) (m : gmap string value) :
  dom (foldl (fun o kv => <[kv.1 := kv.2]> o) m fields) = list_to_set fields.*1 ∪ dom m.
Proof.
  revert m. induction fields as [|[k v] rest IH]; intros m.
  - cbn. rewrite (left_id_L ∅ (∪)). reflexivity.
  - cbn [foldl fst snd]. rewrite IH, dom_insert_L. cbn.
    rewrite (assoc_L (∪)), (comm_L (∪) _ {[k]}). reflexivity.
Qed.

Lemma object_lookup (fields : list (string * value)) (k : string) :
  match object fields with
  | VObj o => o !! k
  | _ => None
  end = lookup_fields k fields.
Proof.
  unfold object. rewrite fields_lookup.
  destruct (lookup_fields k fields); [reflexivity | apply lookup_empty].
Qed.

Lemma field_of_object (fields : list (string * value)) (k : string) :
  field_of k (object fields) = default VUndefined (lookup_fields k fields).
Proof. unfold field_of. rewrite <- object_lookup. reflexivity. Qed.

Lemma schema_of_object (shape : list (string * z.ZodType)) (fields : list (string * value)) :
  z.object shape (object fields) =
  forallb (fun entry => entry.2 (default VUndefined (lookup_fields entry.1 fields))) shape.
Proof.
  unfold z.object. change (object fields) with
    (VObj (foldl (fun o kv => <[kv.1 := kv.2]> o) ∅ fields)).
  induction shape as [|[k schema] shape IH]; [reflexivity|].
  cbn [forallb fst snd]. rewrite IH. f_equal.
  rewrite fields_lookup. destruct (lookup_fields k fields); [reflexivity|].
  rewrite lookup_empty. reflexivity.
Qed.

(** Evaluates the lookups of literal keys in an object literal. *)
Ltac eval_fields :=
  cbn [forallb fst snd lookup_fields String.eqb Ascii.eqb Bool.eqb from_option id].

(** ** Entity schemas *)

Lemma string_accepts (v : value) : z.string v = true <-> is_string v.
Proof.
  unfold is_string. destruct v; simpl; split; try discriminate; eauto;
    intros [s' H]; discriminate.
Qed.

Lemma nonempty_accepts (v : value) : z.min 1 z.string v = true <-> is_nonempty_string v.
Proof.
  unfold is_nonempty_string, z.min. destruct v as [| | | |s| |]; simpl; split;
    try discriminate; try (intros (s' & H & _); discriminate).
  - destruct s; [discriminate|]. intros _. eexists. split; [reflexivity | discriminate].
  - intros (s' & [= <-] & Hne). destruct s; [congruence | reflexivity].
Qed.

Lemma uuid_accepts (v : value) : z.uuid v = true <-> is_uuid_string v.
Proof.
  unfold is_uuid_string. destruct v; simpl; split; try discriminate; eauto;
    try (intros (s' & H & _); discriminate).
  intros (s' & [= <-] & H). exact H.
Qed.

Lemma float32_accepts (v : value) : z.float32 v = true <-> is_float32_number v.
Proof.
  unfold is_float32_number. destruct v as [| | |x| | |];
    try (split; [discriminate | intros (x' & H & _); discriminate]).
  rewrite float32_number. split; eauto.
  intros (x' & [= <-] & H). exact H.
Qed.

Lemma optional_accepts (schema : z.ZodType) (v : value) :
  z.optional schema v = true <-> v = VUndefined \/ schema v = true.
Proof.
  destruct v; simpl; split; auto; intros [H|H]; auto; discriminate.
Qed.

Lemma barrelObject_accepts (v : value) :
  barrelObject v = true <->
  is_plain_object v /\
  (field_of "id" v = VUndefined \/ is_string (field_of "id" v)) /\
  is_nonempty_string (field_of "qr" v) /\
  is_nonempty_string (field_of "rfid" v) /\
  is_nonempty_string (field_of "nfc" v).
Proof.
  destruct v as [| | | | | |o];
    try (split; [discriminate | intros ([o' H] & _); discriminate]).
  unfold barrelObject, z.object, field_of. cbn [forallb fst snd].
  rewrite !andb_true_iff, optional_accepts, string_accepts, !nonempty_accepts.
  unfold is_plain_object. intuition eauto.
Qed.

Lemma measurementObject_accepts (v : value) :
  measurementObject v = true <->
  is_plain_object v /\
  (field_of "id" v = VUndefined \/ is_uuid_string (field_of "id" v)) /\
  is_uuid_string (field_of "barrelId" v) /\
  is_float32_number (field_of "dirtLevel" v) /\
  is_float32_number (field_of "weight" v).
Proof.
  destruct v as [| | | | | |o];
    try (split; [discriminate | intros ([o' H] & _); discriminate]).
  unfold measurementObject, z.object, field_of. cbn [forallb fst snd].
  rewrite !andb_true_iff, optional_accepts, !uuid_accepts, !float32_accepts.
  unfold is_plain_object. intuition eauto.
Qed.

Lemma measurementObject_dirtLevel_sign (o : gmap string value) (x : float) :
  measurementObject (VObj (<["dirtLevel" := VNum (- x)%float]> o)) =
  measurementObject (VObj (<["dirtLevel" := VNum x]> o)).
Proof.
  unfold measurementObject, z.object. cbn [forallb fst snd].
  rewrite !lookup_insert_eq, !lookup_insert_ne by discriminate.
  cbn [from_option id]. rewrite !float32_number, within_float32_opp. reflexivity.
Qed.

Lemma measurementObject_weight_sign (o : gmap string value) (x : float) :
  measurementObject (VObj (<["weight" := VNum (- x)%float]> o)) =
  measurementObject (VObj (<["weight" := VNum x]> o)).
Proof.
  unfold measurementObject, z.object. cbn [forallb fst snd].
  rewrite !lookup_insert_eq, !lookup_insert_ne by discriminate.
  cbn [from_option id]. rewrite !float32_number, within_float32_opp. reflexivity.
Qed.

(** C1, refuted as stated: the schema accepts a measurement whose dirtLevel
    is -10, and rejects one that meets the invariant, with dirtLevel 2^130. *)
Lemma C1_schema_ignores_sign :
  ~ (forall v x,
        field_of "dirtLevel" v = VNum x \/ field_of "weight" v = VNum x ->
        (x <? 0)%float = true ->
        z.safeParse_success measurementObject v = false) /\
  ~ (forall v x w,
        is_plain_object v ->
        field_of "id" v = VUndefined \/ is_uuid_string (field_of "id" v) ->
        is_uuid_string (field_of "barrelId" v) ->
        field_of "dirtLevel" v = VNum x -> (0 <=? x)%float = true ->
        field_of "weight" v = VNum w -> (0 <=? w)%float = true ->
        z.safeParse_success measurementObject v = true).
Proof.
  split.
  - intros H.
    specialize (H negative_dirt_measurement (-10)%float (or_introl eq_refl) eq_refl).
    vm_compute in H. discriminate.
  - intros H.
    assert (z.safeParse_success measurementObject huge_dirt_measurement = true) as Hpass.
    { apply (H huge_dirt_measurement 0x1p+130%float 10%float).
      - eexists. reflexivity.
      - left. reflexivity.
      - eexists. split; reflexivity.
      - reflexivity.
      - reflexivity.
      - reflexivity.
      - reflexivity. }
    vm_compute in Hpass. discriminate.
Qed.

(** C1, as amended: the schema does not look at the sign of dirtLevel and
    weight. It accepts exactly the plain objects whose id is undefined or a
    UUID string, whose barrelId is a UUID string and whose dirtLevel and
    weight are finite numbers of magnitude at most the largest binary32
    value; negating dirtLevel or weight never changes the verdict. *)
Theorem C1_measurement_schema :
  (forall v,
      z.safeParse_success measurementObject v = true <->
      is_plain_object v /\
      (field_of "id" v = VUndefined \/ is_uuid_string (field_of "id" v)) /\
      is_uuid_string (field_of "barrelId" v) /\
      is_float32_number (field_of "dirtLevel" v) /\
      is_float32_number (field_of "weight" v)) /\
  (forall o x,
      z.safeParse_success measurementObject (VObj (<["dirtLevel" := VNum (- x)%float]> o)) =
      z.safeParse_success measurementObject (VObj (<["dirtLevel" := VNum x]> o))) /\
  (forall o x,
      z.safeParse_success measurementObject (VObj (<["weight" := VNum (- x)%float]> o)) =
      z.safeParse_success measurementObject (VObj (<["weight" := VNum x]> o))).
Proof.
  split; [|split].
  - exact measurementObject_accepts.
  - exact measurementObject_dirtLevel_sign.
  - exact measurementObject_weight_sign.
Qed.

Lemma barrelObject_id_string (o : gmap string value) (s s' : string) :
  barrelObject (VObj (<["id" := VStr s]> o)) = barrelObject (VObj (<["id" := VStr s']> o)).
Proof.
  unfold barrelObject, z.object. cbn [forallb fst snd].
  rewrite !lookup_insert_eq, !lookup_insert_ne by discriminate. reflexivity.
Qed.

(** C9: barrelObject accepts a barrel whose id is any string at all, and its
    verdict never depends on which string the id is; measurementObject rejects
    every value that has an id other than a UUID string, and every value whose
    barrelId is not a UUID string; so whether checkBarrelResponseAndReturnBody
    returns does not depend on which string the body's id is. *)
Theorem C9_identifier_formats :
  (forall ident qr rfid nfc,
      qr <> "" -> rfid <> "" -> nfc <> "" ->
      z.safeParse_success barrelObject
        (object [("id", VStr ident); ("qr", VStr qr); ("rfid", VStr rfid); ("nfc", VStr nfc)])
      = true) /\
  (forall o ident ident',
      z.safeParse_success barrelObject (VObj (<["id" := VStr ident]> o)) =
      z.safeParse_success barrelObject (VObj (<["id" := VStr ident']> o))) /\
  (forall v,
      field_of "id" v <> VUndefined -> ~ is_uuid_string (field_of "id" v) ->
      z.safeParse_success measurementObject v = false) /\
  (forall v,
      ~ is_uuid_string (field_of "barrelId" v) ->
      z.safeParse_success measurementObject v = false) /\
  (forall response o ident ident',
      is_Some (returned (BarrelHelper.checkBarrelResponseAndReturnBody
                           (with_body response (VObj (<["id" := VStr ident]> o))))) <->
      is_Some (returned (BarrelHelper.checkBarrelResponseAndReturnBody
                           (with_body response (VObj (<["id" := VStr ident']> o)))))).
Proof.
  split; [|split; [|split; [|split]]].
  - intros ident qr rfid nfc Hqr Hrfid Hnfc.
    unfold z.safeParse_success, barrelObject. rewrite schema_of_object. eval_fields.
    rewrite !andb_true_iff, !nonempty_accepts. unfold is_nonempty_string.
    split; [reflexivity|]. repeat split; eauto.
  - exact barrelObject_id_string.
  - intros v Hid Hbad. unfold z.safeParse_success.
    destruct (measurementObject v) eqn:E; [|reflexivity].
    apply measurementObject_accepts in E. destruct E as (_ & [Hu|Hok] & _); contradiction.
  - intros v Hbad. unfold z.safeParse_success.
    destruct (measurementObject v) eqn:E; [|reflexivity].
    apply measurementObject_accepts in E. destruct E as (_ & _ & Hok & _). contradiction.
  - assert (forall response o ident ident',
               is_Some (returned (BarrelHelper.checkBarrelResponseAndReturnBody
                                    (with_body response (VObj (<["id" := VStr ident]> o))))) ->
               is_Some (returned (BarrelHelper.checkBarrelResponseAndReturnBody
                                    (with_body response (VObj (<["id" := VStr ident']> o))))))
      as Hdir.
    { intros response o ident ident' [body Hbody].
      destruct (BarrelHelper.checkBarrelResponseAndReturnBody
                  (with_body response (VObj (<["id" := VStr ident]> o)))) as [b|e] eqn:E;
        [|discriminate].
      apply check_response_returns in E.
      destruct E as (Hct & Hjson & Htruthy & Hschema).
      assert (BarrelHelper.checkBarrelResponseAndReturnBody
                (with_body response (VObj (<["id" := VStr ident']> o)))
              = Returns (VObj (<["id" := VStr ident']> o))) as ->.
      { apply check_response_returns. split; [exact Hct|].
        split; [reflexivity|]. split; [reflexivity|].
        simpl in Hjson. injection Hjson as <-.
        unfold z.safeParse_success in *.
        rewrite (barrelObject_id_string o ident' ident). exact Hschema. }
      eexists. reflexivity. }
    intros response o ident ident'. split; apply Hdir.
Qed.

(** ** Fixture generators *)

Lemma int_range (min max : Z) (st : faker.state) :
  (min <= max)%Z -> (min <= (faker.int min max st).1 <= max)%Z.
Proof.
  intros Hle. unfold faker.int, faker.next. cbn [fst].
  pose proof (Z.mod_pos_bound (Z.of_N (faker.entropy st (faker.cursor st))) (max - min + 1)).
  lia.
Qed.

Lemma int_state (min max : Z) (st : faker.state) :
  (faker.int min max st).2 =
  {| faker.entropy := faker.entropy st;
     faker.cursor := S (faker.cursor st);
     faker.now := faker.now st |}.
Proof. reflexivity. Qed.

Lemma arrayElement_member (chars : list ascii) (st : faker.state) :
  chars <> [] -> (faker.arrayElement chars st).1 ∈ chars.
Proof.
  intros Hne. unfold faker.arrayElement.
  destruct (faker.int 0 (Z.of_nat (length chars) - 1) st) as [i st'] eqn:E. cbn [fst].
  assert (0 < length chars) as Hlen by (destruct chars; [congruence | simpl; lia]).
  pose proof (int_range 0 (Z.of_nat (length chars) - 1) st ltac:(lia)) as Hi.
  rewrite E in Hi. cbn [fst] in Hi.
  apply list_elem_of_In, nth_In. lia.
Qed.

Lemma arrayElement_state (chars : list ascii) (st : faker.state) :
  (faker.arrayElement chars st).2 =
  {| faker.entropy := faker.entropy st;
     faker.cursor := S (faker.cursor st);
     faker.now := faker.now st |}.
Proof. reflexivity. Qed.

(** [fromCharacters chars n] gives [n] characters, each out of [chars], and
    takes [n] draws. *)
Lemma fromCharacters_spec (chars : list ascii) (n : nat) (st : faker.state) :
  chars <> [] ->
  String.length (faker.fromCharacters chars n st).1 = n /\
  Forall (fun c => c ∈ chars) (String.list_ascii_of_string (faker.fromCharacters chars n st).1) /\
  (faker.fromCharacters chars n st).2 =
  {| faker.entropy := faker.entropy st;
     faker.cursor := faker.cursor st + n;
     faker.now := faker.now st |}.
Proof.
  intros Hne. revert st. induction n as [|n IH]; intros st.
  - cbn. repeat split; [constructor|]. destruct st. cbn. f_equal. lia.
  - cbn [faker.fromCharacters].
    pose proof (arrayElement_member chars st Hne) as Hc.
    pose proof (arrayElement_state chars st) as Hst.
    destruct (faker.arrayElement chars st) as [c st1]. cbn [fst snd] in Hc, Hst.
    destruct (IH st1) as (Hlen & Hall & Hst2).
    destruct (faker.fromCharacters chars n st1) as [rest st2]. cbn [fst snd] in *.
    split; [cbn; congruence|]. split; [constructor; assumption|].
    rewrite Hst2, Hst. cbn. f_equal. lia.
Qed.

Lemma dateToBase32_length (len : nat) (value : N) (result : string) :
  String.length (faker.dateToBase32 len value result) = len + String.length result.
Proof.
  revert value result. induction len as [|len IH]; intros value result; [reflexivity|].
  cbn [faker.dateToBase32]. rewrite IH. cbn. lia.
Qed.

(** *** What the draws give *)

Lemma arrayElement_value (chars : list ascii) (st : faker.state) :
  faker.arrayElement chars st =
  (pick chars (faker.entropy st (faker.cursor st)),
   {| faker.entropy := faker.entropy st;
      faker.cursor := S (faker.cursor st);
      faker.now := faker.now st |}).
Proof.
  unfold faker.arrayElement, faker.int, faker.next, pick. cbn [fst snd].
  f_equal. f_equal. f_equal. rewrite Z.add_0_l. f_equal. lia.
Qed.

Lemma characters_at_succ (chars : list ascii) (entropy : nat -> N) (position n : nat) :
  characters_at chars entropy position (S n) =
  String (pick chars (entropy position)) (characters_at chars entropy (S position) n).
Proof.
  unfold characters_at. cbn [seq map String.string_of_list_ascii]. rewrite Nat.add_0_r.
  f_equal. f_equal. rewrite <- seq_shift, map_map. apply map_ext.
  intros i. f_equal. f_equal. lia.
Qed.

Lemma nanoid_at_succ (entropy : nat -> N) (position n : nat) :
  nanoid_at entropy position (S n) =
  String (nanoid_character entropy position) (nanoid_at entropy (S (S position)) n).
Proof.
  unfold nanoid_at. cbn [seq map String.string_of_list_ascii Nat.mul]. rewrite Nat.add_0_r.
  f_equal. f_equal. rewrite <- seq_shift, map_map. apply map_ext.
  intros i. f_equal. lia.
Qed.

(** [fromCharacters chars n] gives the characters that the next [n] draws
    pick, and takes these draws. *)
Lemma fromCharacters_value (chars : list ascii) (n : nat) (st : faker.state) :
  faker.fromCharacters chars n st =
  (characters_at chars (faker.entropy st) (faker.cursor st) n,
   {| faker.entropy := faker.entropy st;
      faker.cursor := faker.cursor st + n;
      faker.now := faker.now st |}).
Proof.
  revert st. induction n as [|n IH]; intros st.
  - cbn [faker.fromCharacters]. f_equal. destruct st. cbn. f_equal. lia.
  - cbn [faker.fromCharacters]. rewrite arrayElement_value, IH.
    cbn [faker.entropy faker.cursor faker.now]. rewrite characters_at_succ.
    f_equal. f_equal. lia.
Qed.

(** The choice between the two generators of a nanoid: one draw, read
    modulo 64, the first generator below 62. *)
Lemma weighted_choice {A} (alphanumeric other : A) (st : faker.state) :
  faker.weightedArrayElement (62%Z, alphanumeric) [(2%Z, other)] st =
  (if (Z.of_N (faker.entropy st (faker.cursor st)) mod 64 <? 62)%Z
   then alphanumeric else other,
   {| faker.entropy := faker.entropy st;
      faker.cursor := S (faker.cursor st);
      faker.now := faker.now st |}).
Proof.
  unfold faker.weightedArrayElement, faker.int, faker.next.
  cbn [foldl fst snd].
  change (0 + 62 + 2 - 1 - 0 + 1)%Z with 64%Z. change (0 + 62 + 2)%Z with 64%Z.
  change (0 + 62)%Z with 62%Z. rewrite !Z.add_0_l.
  set (random := (Z.of_N (faker.entropy st (faker.cursor st)) mod 64)%Z).
  assert (0 <= random < 64)%Z as Hrandom by (apply Z.mod_pos_bound; lia).
  f_equal. destruct (Z.ltb_spec random 62) as [_|_]; [reflexivity|].
  destruct (Z.ltb_spec random 64) as [_|Habove]; [reflexivity | lia].
Qed.

Lemma append_cons (x : ascii) (a b : string) : String x a +:+ b = String x (a +:+ b).
Proof. reflexivity. Qed.

Lemma append_empty_l (a : string) : EmptyString +:+ a = a.
Proof. reflexivity. Qed.

Lemma append_snoc (a b : string) (c : ascii) :
  (a +:+ String c EmptyString) +:+ b = a +:+ String c b.
Proof. induction a as [|x a IH]; [reflexivity|]. rewrite !append_cons, IH. reflexivity. Qed.

Lemma append_empty_r (a : string) : a +:+ EmptyString = a.
Proof. induction a as [|x a IH]; [reflexivity|]. rewrite append_cons, IH. reflexivity. Qed.

(** The loop of nanoid, started with a result that lacks [fuel] characters,
    appends the characters that the next [2 * fuel] draws give and ends: the
    fuel is enough. *)
Lemma nanoid_loop_value (fuel : nat) (result : string) (st : faker.state) :
  String.length result + fuel = 21 ->
  faker.string.nanoid_loop fuel result st =
  (result +:+ nanoid_at (faker.entropy st) (faker.cursor st) fuel,
   {| faker.entropy := faker.entropy st;
      faker.cursor := faker.cursor st + 2 * fuel;
      faker.now := faker.now st |}).
Proof.
  revert result st. induction fuel as [|fuel IH]; intros result st Hlength.
  - cbn [faker.string.nanoid_loop]. unfold nanoid_at. cbn [seq map String.string_of_list_ascii].
    rewrite append_empty_r. f_equal. destruct st. cbn. f_equal. lia.
  - cbn [faker.string.nanoid_loop].
    assert ((String.length result <? 21)%nat = true) as -> by (apply Nat.ltb_lt; lia).
    rewrite weighted_choice, nanoid_at_succ, <- append_snoc. unfold nanoid_character.
    destruct (Z.of_N (faker.entropy st (faker.cursor st)) mod 64 <? 62)%Z.
    + unfold faker.string.alphanumeric. rewrite fromCharacters_value.
      cbn [faker.entropy faker.cursor faker.now].
      rewrite characters_at_succ. unfold characters_at at 1.
      cbn [seq map String.string_of_list_ascii].
      rewrite IH by (rewrite string_length_append; cbn; lia).
      cbn [faker.entropy faker.cursor faker.now]. f_equal; f_equal; try lia.
      f_equal. lia.
    + rewrite arrayElement_value. cbn [faker.entropy faker.cursor faker.now].
      rewrite IH by (rewrite string_length_append; cbn; lia).
      cbn [faker.entropy faker.cursor faker.now]. f_equal. f_equal. lia.
Qed.

(** The barrel that a state of faker gives, tag by tag, and the state that
    the call leaves. *)
Lemma prepareBarrelObject_value (st : faker.state) :
  prepareBarrelObject st =
  (object [("qr", VStr (generated_qr st));
           ("rfid", VStr (generated_rfid st));
           ("nfc", VStr (generated_nfc st))], after_barrel st).
Proof.
  unfold prepareBarrelObject, faker.string.nanoid, faker.string.ulid, faker.string.alpha.
  rewrite (nanoid_loop_value 21 EmptyString st eq_refl).
  rewrite !fromCharacters_value. cbn [faker.entropy faker.cursor faker.now].
  rewrite append_empty_l.
  unfold generated_qr, generated_rfid, generated_nfc, after_barrel.
  replace (faker.cursor st + 2 * 21) with (faker.cursor st + 42) by lia.
  replace (faker.cursor st + 42 + 16) with (faker.cursor st + 58) by lia.
  replace (faker.cursor st + 58 + 20) with (faker.cursor st + 78) by lia.
  reflexivity.
Qed.

(** *** The format of what the draws give *)

Lemma pick_member (chars : list ascii) (draw : N) : chars <> [] -> pick chars draw ∈ chars.
Proof.
  intros Hne. unfold pick.
  assert (0 < length chars) as Hlen by (destruct chars; [congruence | simpl; lia]).
  pose proof (Z.mod_pos_bound (Z.of_N draw) (Z.of_nat (length chars)) ltac:(lia)).
  apply list_elem_of_In, nth_In. lia.
Qed.

Lemma nanoid_character_member (entropy : nat -> N) (position : nat) :
  nanoid_character entropy position ∈ nanoid_alphabet.
Proof.
  unfold nanoid_character, nanoid_alphabet.
  change (faker.digits ++ faker.lower ++ faker.upper ++ ["_"; "-"]%char)%list
    with ((faker.digits ++ faker.lower ++ faker.upper) ++ ["_"; "-"]%char)%list.
  apply elem_of_app.
  destruct (_ <? 62)%Z; [left | right]; apply pick_member; discriminate.
Qed.

Lemma Forall_of_map {A B} (P : B -> Prop) (f : A -> B) (l : list A) :
  (forall x, P (f x)) -> Forall P (map f l).
Proof. intros H. induction l; constructor; auto. Qed.

Lemma characters_at_member (chars : list ascii) (entropy : nat -> N) (position n : nat) :
  chars <> [] ->
  Forall (fun c => c ∈ chars)
    (String.list_ascii_of_string (characters_at chars entropy position n)).
Proof.
  intros Hne. unfold characters_at. rewrite String.list_ascii_of_string_of_list_ascii.
  apply Forall_of_map. intros i. apply pick_member. exact Hne.
Qed.

Lemma list_ascii_of_append (a b : string) :
  String.list_ascii_of_string (a +:+ b) =
  (String.list_ascii_of_string a ++ String.list_ascii_of_string b)%list.
Proof.
  induction a as [|x a IH]; [reflexivity|].
  rewrite append_cons. cbn [String.list_ascii_of_string app]. rewrite IH. reflexivity.
Qed.

Lemma dateToBase32_member (len : nat) (value : N) (result : string) :
  Forall (fun c => c ∈ faker.CROCKFORDS_BASE32) (String.list_ascii_of_string result) ->
  Forall (fun c => c ∈ faker.CROCKFORDS_BASE32)
    (String.list_ascii_of_string (faker.dateToBase32 len value result)).
Proof.
  revert value result. induction len as [|len IH]; intros value result Hresult; [exact Hresult|].
  cbn [faker.dateToBase32]. apply IH. cbn [String.list_ascii_of_string].
  constructor; [|exact Hresult].
  apply list_elem_of_In, nth_In.
  pose proof (N.mod_upper_bound value 32 ltac:(discriminate)).
  change (length faker.CROCKFORDS_BASE32) with 32. lia.
Qed.

(** The three tags have the formats of a nanoid, of a ulid and of twenty
    letters. *)
Lemma generated_tags_format (st : faker.state) :
  (String.length (generated_qr st) = 21 /\
   Forall (fun c => c ∈ nanoid_alphabet) (String.list_ascii_of_string (generated_qr st))) /\
  (String.length (generated_rfid st) = 26 /\
   Forall (fun c => c ∈ faker.CROCKFORDS_BASE32)
     (String.list_ascii_of_string (generated_rfid st))) /\
  (String.length (generated_nfc st) = 20 /\
   Forall (fun c => c ∈ (faker.lower ++ faker.upper)%list)
     (String.list_ascii_of_string (generated_nfc st))).
Proof.
  split; [|split]; split.
  - reflexivity.
  - unfold generated_qr, nanoid_at. rewrite String.list_ascii_of_string_of_list_ascii.
    apply Forall_of_map. intros i. apply nanoid_character_member.
  - unfold generated_rfid. rewrite string_length_append, dateToBase32_length. reflexivity.
  - unfold generated_rfid. rewrite list_ascii_of_append. apply Forall_app. split.
    + apply dateToBase32_member. constructor.
    + apply characters_at_member. discriminate.
  - reflexivity.
  - apply characters_at_member. discriminate.
Qed.

Lemma prepareBarrelObject_shape (st : faker.state) :
  exists qr rfid nfc,
    prepareBarrelObject st =
      (object [("qr", VStr qr); ("rfid", VStr rfid); ("nfc", VStr nfc)], after_barrel st) /\
    String.length qr = 21 /\
    String.length rfid = 26 /\
    String.length nfc = 20 /\
    Forall (fun c => c ∈ (faker.lower ++ faker.upper)%list) (String.list_ascii_of_string nfc).
Proof.
  destruct (generated_tags_format st) as ((Hqr & _) & (Hrfid & _) & (Hnfc & Hletters)).
  exists (generated_qr st), (generated_rfid st), (generated_nfc st).
  split; [apply prepareBarrelObject_value|]. auto.
Qed.

Lemma nonempty_of_length (s : string) (n : nat) : String.length s = S n -> s <> "".
Proof. intros H ->. discriminate. Qed.

(** C3, refuted as stated: the construction is not pure. Every call moves
    faker's randomizer, and the second of two calls in a row from [first_run]
    returns another qr than the first. *)
Lemma C3_not_pure :
  ~ (forall st, (prepareBarrelObject st).2 = st) /\
  field_of "qr" (prepareBarrelObject (prepareBarrelObject first_run).2).1 <>
    field_of "qr" (prepareBarrelObject first_run).1.
Proof.
  split.
  - intros H. specialize (H first_run). rewrite prepareBarrelObject_value in H.
    apply (f_equal faker.cursor) in H. cbn in H. lia.
  - vm_compute. discriminate.
Qed.

(** C3, as amended: every call of prepareBarrelObject returns the object
    { qr, rfid, nfc } that faker's next 78 draws and its reference date
    determine: qr the nanoid of the first 42 draws, 21 characters of
    A-Za-z0-9_-; rfid the ulid, the reference date in ten Crockford base32
    digits followed by the sixteen that the next 16 draws pick, 26 characters;
    nfc the 20 letters that the last 20 draws pick. barrelObject.safeParse
    succeeds on it. The call is not pure: it leaves faker's randomizer 78
    draws further, in a state other than the one it found. *)
Theorem C3_prepareBarrelObject (st : faker.state) :
  prepareBarrelObject st =
    (object [("qr", VStr (generated_qr st));
             ("rfid", VStr (generated_rfid st));
             ("nfc", VStr (generated_nfc st))], after_barrel st) /\
  (String.length (generated_qr st) = 21 /\
   Forall (fun c => c ∈ nanoid_alphabet) (String.list_ascii_of_string (generated_qr st))) /\
  (String.length (generated_rfid st) = 26 /\
   Forall (fun c => c ∈ faker.CROCKFORDS_BASE32)
     (String.list_ascii_of_string (generated_rfid st))) /\
  (String.length (generated_nfc st) = 20 /\
   Forall (fun c => c ∈ (faker.lower ++ faker.upper)%list)
     (String.list_ascii_of_string (generated_nfc st))) /\
  z.safeParse_success barrelObject (prepareBarrelObject st).1 = true /\
  after_barrel st <> st.
Proof.
  destruct (generated_tags_format st) as (Hqr & Hrfid & Hnfc).
  split; [apply prepareBarrelObject_value|].
  split; [exact Hqr|]. split; [exact Hrfid|]. split; [exact Hnfc|].
  split.
  - rewrite prepareBarrelObject_value. cbn [fst].
    unfold z.safeParse_success, barrelObject. rewrite schema_of_object. eval_fields.
    rewrite !andb_true_iff, !nonempty_accepts. unfold is_nonempty_string.
    split; [reflexivity|].
    split; [|split; [|split; [|reflexivity]]]; eexists; (split; [reflexivity|]).
    + exact (nonempty_of_length _ _ (proj1 Hqr)).
    + exact (nonempty_of_length _ _ (proj1 Hrfid)).
    + exact (nonempty_of_length _ _ (proj1 Hnfc)).
  - intros H. apply (f_equal faker.cursor) in H. cbn in H. lia.
Qed.

Lemma checked_on_range (ok : Z -> bool) (lo len : Z) :
  forallb ok (seqZ lo len) = true ->
  forall k, (lo <= k < lo + len)%Z -> ok k = true.
Proof.
  intros Hall k Hk. rewrite forallb_forall in Hall.
  apply Hall, list_elem_of_In, elem_of_seqZ. exact Hk.
Qed.

Lemma dirtLevel_range (k : Z) : (100 <= k <= 9500)%Z -> dirtLevel_ok k = true.
Proof.
  intros Hk. apply (checked_on_range dirtLevel_ok 100 9401); [|lia].
  vm_compute. reflexivity.
Qed.

Lemma weight_range (k : Z) : (1000 <= k <= 2000)%Z -> weight_ok k = true.
Proof.
  intros Hk. apply (checked_on_range weight_ok 1000 1001); [|lia].
  vm_compute. reflexivity.
Qed.

Lemma float_value (min max : Z) (fractionDigits : nat) (st : faker.state) :
  (min <= max)%Z ->
  exists k,
    (min * 10 ^ Z.of_nat fractionDigits <= k <= max * 10 ^ Z.of_nat fractionDigits)%Z /\
    faker.number.float min max fractionDigits st =
      ((faker.number_of_Z k / faker.number_of_Z (10 ^ Z.of_nat fractionDigits))%float,
       {| faker.entropy := faker.entropy st;
          faker.cursor := S (faker.cursor st);
          faker.now := faker.now st |}).
Proof.
  intros Hle. unfold faker.number.float.
  set (factor := (10 ^ Z.of_nat fractionDigits)%Z).
  assert (0 < factor)%Z as Hfactor by (apply Z.pow_pos_nonneg; lia).
  pose proof (int_range (min * factor) (max * factor) st ltac:(nia)) as Hk.
  pose proof (int_state (min * factor) (max * factor) st) as Hst.
  destruct (faker.int (min * factor) (max * factor) st) as [k st']. cbn [fst snd] in Hk, Hst.
  exists k. split; [exact Hk|]. rewrite Hst. reflexivity.
Qed.

Lemma prepareMeasurementObject_shape (barrelId : string) (st : faker.state) :
  exists k1 k2 st',
    prepareMeasurementObject barrelId st =
      (object [("barrelId", VStr barrelId);
               ("dirtLevel", VNum (faker.number_of_Z k1 / faker.number_of_Z 100)%float);
               ("weight", VNum (faker.number_of_Z k2 / faker.number_of_Z 10)%float)], st') /\
    (100 <= k1 <= 9500)%Z /\ (1000 <= k2 <= 2000)%Z.
Proof.
  unfold prepareMeasurementObject.
  destruct (float_value 1 95 2 st ltac:(lia)) as (k1 & Hk1 & ->).
  match goal with |- context [faker.number.float 100 200 1 ?s] =>
    destruct (float_value 100 200 1 s ltac:(lia)) as (k2 & Hk2 & ->) end.
  change (10 ^ Z.of_nat 2)%Z with 100%Z in *. change (10 ^ Z.of_nat 1)%Z with 10%Z in *.
  exists k1, k2. eexists. split; [reflexivity | lia].
Qed.

(** C4, refuted as stated: for the barrelId "not-guid" the generated
    measurement does not conform to measurementObject. *)
Lemma C4_not_every_barrelId :
  ~ (forall barrelId st,
        z.safeParse_success measurementObject (prepareMeasurementObject barrelId st).1 = true).
Proof.
  intros H.
  specialize (H "not-guid"
                {| faker.entropy := fun i => N.of_nat i; faker.cursor := 0; faker.now := 0 |}).
  vm_compute in H. discriminate.
Qed.

(** C4, as amended: for every string barrelId, prepareMeasurementObject
    returns the object { barrelId, dirtLevel, weight } whose barrelId is the
    argument, whose dirtLevel is k / 100 for an integer k from 100 to 9500,
    so between 1 and 95, and whose weight is k / 10 for an integer k from
    1000 to 2000, so between 100 and 200; the object conforms to
    measurementObject exactly when barrelId is UUID-formatted. *)
Theorem C4_prepareMeasurementObject (barrelId : string) (st : faker.state) :
  exists k1 k2 st',
    let dirtLevel := (faker.number_of_Z k1 / faker.number_of_Z 100)%float in
    let weight := (faker.number_of_Z k2 / faker.number_of_Z 10)%float in
    prepareMeasurementObject barrelId st =
      (object [("barrelId", VStr barrelId); ("dirtLevel", VNum dirtLevel);
               ("weight", VNum weight)], st') /\
    (100 <= k1 <= 9500)%Z /\
    (1 <=? dirtLevel)%float = true /\ (dirtLevel <=? 95)%float = true /\
    (1000 <= k2 <= 2000)%Z /\
    (100 <=? weight)%float = true /\ (weight <=? 200)%float = true /\
    z.safeParse_success measurementObject (prepareMeasurementObject barrelId st).1 =
      z.uuid_regex barrelId.
Proof.
  destruct (prepareMeasurementObject_shape barrelId st) as (k1 & k2 & st' & Heq & Hk1 & Hk2).
  exists k1, k2, st'. cbn zeta. rewrite Heq.
  pose proof (dirtLevel_range k1 Hk1) as Hd.
  pose proof (weight_range k2 Hk2) as Hw.
  unfold dirtLevel_ok, weight_ok in Hd, Hw. cbn zeta in Hd, Hw.
  apply andb_true_iff in Hd as [Hd Hd32]. apply andb_true_iff in Hd as [Hd1 Hd95].
  apply andb_true_iff in Hw as [Hw Hw32]. apply andb_true_iff in Hw as [Hw100 Hw200].
  split; [reflexivity|].
  split; [exact Hk1|]. split; [exact Hd1|]. split; [exact Hd95|].
  split; [exact Hk2|]. split; [exact Hw100|]. split; [exact Hw200|].
  cbn [fst]. unfold z.safeParse_success, measurementObject. rewrite schema_of_object.
  eval_fields. rewrite Hd32, Hw32. cbn [z.optional z.uuid andb].
  rewrite andb_true_r. reflexivity.
Qed.

(** C10: neither fixture generator sets id. Whatever the state of faker and
    whatever the barrelId, the object returned has no id key: its keys are
    qr, rfid, nfc, and barrelId, dirtLevel, weight. *)
Theorem C10_generators_set_no_id :
  (forall st, exists o,
      (prepareBarrelObject st).1 = VObj o /\
      o !! "id" = None /\
      dom o = {["qr"; "rfid"; "nfc"]}) /\
  (forall barrelId st, exists o,
      (prepareMeasurementObject barrelId st).1 = VObj o /\
      o !! "id" = None /\
      dom o = {["barrelId"; "dirtLevel"; "weight"]}).
Proof.
  split.
  - intros st. destruct (prepareBarrelObject_shape st) as (qr & rfid & nfc & -> & _).
    eexists. cbn [fst]. split; [reflexivity|]. split.
    + rewrite fields_lookup. eval_fields. apply lookup_empty.
    + rewrite fields_dom. cbn. set_solver.
  - intros barrelId st.
    destruct (prepareMeasurementObject_shape barrelId st) as (k1 & k2 & st' & -> & _).
    eexists. cbn [fst]. split; [reflexivity|]. split.
    + rewrite fields_lookup. eval_fields. apply lookup_empty.
    + rewrite fields_dom. cbn. set_solver.
Qed.

(** ** Scenarios *)

(** The assertions that the negative scenarios make on a response. *)
Lemma error_assertions_return (response : APIResponse) (key message : string) :
  (expect.statusToBe (status response) 400 ;;
   body ← json response;
   BarrelHelper.checkErrorResponse body ;;
   errors ← member "errors" body;
   entry ← member key errors;
   expect.toBeTruthy entry ;;
   expect.toBe (first_opt entry) (VStr message)) = Returns tt
  <-> answered_with_error response key message.
Proof.
  unfold answered_with_error.
  rewrite bind_returns. setoid_rewrite statusToBe_returns.
  setoid_rewrite bind_returns. setoid_rewrite required_by_optional_index.
  unfold json. split.
  - intros (_ & Hstatus & body & Hjson & Hshape). split; [exact Hstatus|].
    exists body. destruct (body_json response); [|discriminate].
    injection Hjson as ->. auto.
  - intros (Hstatus & body & Hjson & Hshape).
    exists tt. split; [exact Hstatus|]. exists body. rewrite Hjson. auto.
Qed.

Lemma error_assertions_with_truthy_first (response : APIResponse) (key message : string) :
  message <> "" ->
  (expect.statusToBe (status response) 400 ;;
   body ← json response;
   MeasurementHelper.checkErrorResponse body ;;
   errors ← member "errors" body;
   entry ← member key errors;
   expect.toBeTruthy entry ;;
   expect.toBeTruthy (first_opt entry) ;;
   expect.toBe (first_opt entry) (VStr message)) = Returns tt
  <-> answered_with_error response key message.
Proof.
  intros Hmessage. rewrite <- error_assertions_return.
  change MeasurementHelper.checkErrorResponse with BarrelHelper.checkErrorResponse.
  destruct (expect.statusToBe (status response) 400) as [[]|]; [|reflexivity].
  destruct (json response) as [body|]; [|reflexivity]. cbn [mbind outcome_bind].
  destruct (BarrelHelper.checkErrorResponse body) as [[]|]; [|reflexivity].
  destruct (member "errors" body) as [errors|]; [|reflexivity]. cbn [mbind outcome_bind].
  destruct (member key errors) as [entry|]; [|reflexivity]. cbn [mbind outcome_bind].
  destruct (expect.toBeTruthy entry) as [[]|]; [|reflexivity]. cbn [mbind outcome_bind].
  destruct (expect.toBeTruthy (first_opt entry)) as [[]|e] eqn:E; [reflexivity|].
  cbn [mbind outcome_bind]. rewrite toBe_string_returns.
  split; [discriminate|]. intros Heq. rewrite Heq in E.
  unfold expect.toBeTruthy in E. cbn [truthy] in E.
  destruct (String.eqb_spec message ""); [contradiction | discriminate].
Qed.

Section ScenarioProperties.

Context {World : Type}.
Variable serve : Request -> World -> APIResponse * World.

Lemma post_then_assert (url : string) (payload : value)
    (assertions : APIResponse -> outcome unit) (fx : @Fixtures World) :
  (@mbind _ (@test_bind World) _ _ (fun response => attempt (assertions response))
     (request_post serve url payload) fx).1
  = assertions (response_to_post serve url payload fx).
Proof.
  unfold mbind, test_bind, request_post, attempt, response_to_post, post_request.
  destruct (serve _ (world fx)) as [response w]. reflexivity.
Qed.

(** C6: the scenario 'Dirt level is negative number' posts a measurement
    with dirtLevel -10 and passes exactly when the service answers it with
    status 400 and an error body whose errors.DirtLevel[0] is
    'DirtLevel must be positive number'; the scenario 'Weight is negative
    number' posts weight -10 and passes exactly when the answer has status
    400 and errors.Weight[0] is 'Weight must be positive number'. *)
Theorem C6_negative_number_scenarios (barrel : value) (fx : @Fixtures World) :
  ((test_Dirt_level_is_negative_number serve barrel fx).1 = Returns tt <->
   nullish barrel = false /\
   answered_with_error
     (response_to_post serve "/measurements"
        (object [("barrelId", field_of "id" barrel);
                 ("dirtLevel", VNum (-10)%float);
                 ("weight", VNum 10%float)]) fx)
     "DirtLevel" "DirtLevel must be positive number") /\
  ((test_Weight_is_negative_number serve barrel fx).1 = Returns tt <->
   nullish barrel = false /\
   answered_with_error
     (response_to_post serve "/measurements"
        (object [("barrelId", field_of "id" barrel);
                 ("dirtLevel", VNum 10%float);
                 ("weight", VNum (-10)%float)]) fx)
     "Weight" "Weight must be positive number").
Proof.
  split.
  - unfold test_Dirt_level_is_negative_number.
    unfold mbind at 1. unfold test_bind at 1. unfold attempt at 1. unfold member at 1.
    destruct (nullish barrel).
    + split; [discriminate | intros [? _]; discriminate].
    + unfold measurementsEndpoint. rewrite post_then_assert.
      rewrite error_assertions_with_truthy_first by discriminate. tauto.
  - unfold test_Weight_is_negative_number.
    unfold mbind at 1. unfold test_bind at 1. unfold attempt at 1. unfold member at 1.
    destruct (nullish barrel).
    + split; [discriminate | intros [? _]; discriminate].
    + unfold measurementsEndpoint. rewrite post_then_assert.
      change MeasurementHelper.checkErrorResponse with BarrelHelper.checkErrorResponse.
      rewrite error_assertions_return. tauto.
Qed.


End ScenarioProperties.




(** ** The concurrency scenario *)

Lemma for_of_status (responses : list APIResponse) (code : Z) :
  for_of responses (fun res => expect.statusToBe (status res) code) = Returns tt
  <-> Forall (fun response => status response = code) responses.
Proof.
  induction responses as [|r responses IH]; cbn [for_of].
  - split; [constructor | reflexivity].
  - rewrite bind_returns. setoid_rewrite statusToBe_returns. rewrite Forall_cons, <- IH.
    split; [intros (_ & H1 & H2); auto | intros [H1 H2]; exists tt; auto].
Qed.

Lemma omap_all_length {A B} (f : A -> option B) (l : list A) :
  (forall x, x ∈ l -> is_Some (f x)) -> length (omap f l) = length l.
Proof.
  induction l as [|x l IH]; intros Hall; [reflexivity|].
  cbn [omap list_omap]. destruct (Hall x) as [y Hy]; [left|]. rewrite Hy. cbn.
  rewrite IH; [reflexivity|]. intros x' Hx'. apply Hall. right. exact Hx'.
Qed.

Lemma omap_all_lookup {A B} (f : A -> option B) (l : list A) (i : nat) (x : A) :
  (forall x, x ∈ l -> is_Some (f x)) -> l !! i = Some x -> omap f l !! i = f x.
Proof.
  revert i. induction l as [|y l IH]; intros i Hall Hi; [discriminate|].
  cbn [omap list_omap]. destruct (Hall y) as [z Hz]; [left|]. rewrite Hz.
  destruct i as [|i].
  - injection Hi as <-. rewrite Hz. reflexivity.
  - cbn. apply IH; [|exact Hi]. intros x' Hx'. apply Hall. right. exact Hx'.
Qed.

(** The ten payloads differ from one another: their qr tags do. *)
Lemma barrelPayloads_distinct : NoDup barrelPayloads.
Proof.
  apply (NoDup_fmap_1 (fun v => match field_of "qr" v with VStr s => s | _ => "" end)).
  apply (bool_decide_unpack _). vm_compute. exact I.
Qed.

Section ConcurrencyProperties.

Context {World : Type}.
Variable serve : Request -> World -> APIResponse * World.

(** Whatever the schedule, every scheduled request is handled once, in the
    order of the schedule, and answered. *)
Lemma post_scheduled_spec (schedule : list nat) (url : string) (payloads : list value)
    (fx : @Fixtures World) :
  Forall (fun i => i < length payloads) schedule ->
  exists answers fx',
    post_scheduled serve schedule url payloads fx = (Returns answers, fx') /\
    (forall i, i ∈ schedule -> is_Some (answers !! i)) /\
    (forall i response,
        answers !! i = Some response ->
        exists payload w,
          payloads !! i = Some payload /\
          response = (serve (post_request url payload) w).1) /\
    handled fx' =
      (handled fx ++ omap (fun i => post_request url <$> payloads !! i) schedule)%list /\
    fk fx' = fk fx.
Proof.
  revert fx. induction schedule as [|i schedule IH]; intros fx Hvalid.
  - exists ∅, fx. cbn. rewrite app_nil_r.
    split; [reflexivity|]. split; [intros i Hi; inversion Hi|].
    split; [|split; reflexivity].
    intros i response Hi. rewrite lookup_empty in Hi. discriminate.
  - apply Forall_cons in Hvalid as [Hi Hvalid].
    destruct (lookup_lt_is_Some_2 _ _ Hi) as [payload Hpayload].
    cbn [post_scheduled omap list_omap]. rewrite Hpayload. cbn [fmap option_fmap option_map].
    unfold mbind at 1. unfold test_bind at 1. unfold request_post at 1.
    change {| method := POST; url := url; data := payload |}
      with (post_request url payload).
    destruct (serve (post_request url payload) (world fx)) as [response w] eqn:Hserve.
    assert ((serve (post_request url payload) (world fx)).1 = response) as Hfrom
      by (rewrite Hserve; reflexivity).
    destruct (IH {| fk := fk fx; world := w;
                    handled := handled fx ++ [post_request url payload] |}
                Hvalid)
      as (answers & fx' & Hrun & Hsome & Hanswer & Hhandled & Hfk).
    exists (<[i := response]> answers), fx'.
    unfold mbind, test_bind. rewrite Hrun. cbn in Hhandled, Hfk |- *.
    split; [reflexivity|]. split; [|split; [|split; [|exact Hfk]]].
    + intros j Hj. destruct (decide (j = i)) as [->|Hne].
      * rewrite lookup_insert_eq. eauto.
      * rewrite lookup_insert_ne by congruence. apply Hsome.
        apply elem_of_cons in Hj as [?|?]; [contradiction | assumption].
    + intros j response' Hj. destruct (decide (j = i)) as [->|Hne].
      * rewrite lookup_insert_eq in Hj. injection Hj as <-.
        exists payload, (world fx). split; [exact Hpayload | symmetry; exact Hfrom].
      * rewrite lookup_insert_ne in Hj by congruence. exact (Hanswer j response' Hj).
    + rewrite Hhandled, <- app_assoc. reflexivity.
Qed.

(** C8: the concurrency scenario builds ten payloads, all different, and
    posts each of them once to /barrels; whatever the order in which the
    service handles the ten requests, all ten are handled before anything is
    asserted, the ten responses come back by position, and the scenario passes
    exactly when every one of them has status 201. *)
Theorem C8_concurrent_creation (schedule : list nat) (fx : @Fixtures World) :
  schedule ≡ₚ seq 0 10 ->
  length barrelPayloads = 10 /\
  NoDup barrelPayloads /\
  exists responses fx',
    Promise_all_post serve schedule barrelsEndpoint barrelPayloads fx =
      (Returns responses, fx') /\
    length responses = 10 /\
    (forall i response,
        responses !! i = Some response ->
        exists payload w,
          barrelPayloads !! i = Some payload /\
          response = (serve (post_request "/barrels" payload) w).1) /\
    handled fx' ≡ₚ (handled fx ++ (post_request "/barrels" <$> barrelPayloads))%list /\
    (test_Create_multiple_barrels_concurrently serve schedule fx).2 = fx' /\
    ((test_Create_multiple_barrels_concurrently serve schedule fx).1 = Returns tt <->
     Forall (fun response => status response = 201%Z) responses).
Proof.
  intros Hperm. split; [reflexivity|]. split; [exact barrelPayloads_distinct|].
  assert (Forall (fun i => i < length barrelPayloads) schedule) as Hvalid.
  { rewrite Hperm. apply Forall_forall. intros i Hi. apply elem_of_seq in Hi.
    change (length barrelPayloads) with 10. lia. }
  destruct (post_scheduled_spec schedule barrelsEndpoint barrelPayloads fx Hvalid)
    as (answers & fx' & Hrun & Hsome & Hanswer & Hhandled & _).
  assert (forall i, i ∈ seq 0 (length barrelPayloads) -> is_Some (answers !! i)) as Hall10.
  { intros i Hi. apply Hsome. rewrite Hperm. exact Hi. }
  exists (omap (fun i => answers !! i) (seq 0 (length barrelPayloads))), fx'.
  assert (Promise_all_post serve schedule barrelsEndpoint barrelPayloads fx =
          (Returns (omap (fun i => answers !! i) (seq 0 (length barrelPayloads))), fx'))
    as Hall.
  { unfold Promise_all_post, mbind, test_bind. rewrite Hrun. reflexivity. }
  split; [exact Hall|]. split; [|split; [|split; [|split]]].
  - rewrite omap_all_length; [reflexivity | exact Hall10].
  - intros i response Hi.
    assert (i < length barrelPayloads) as Hlt.
    { apply lookup_lt_Some in Hi. rewrite omap_all_length in Hi by exact Hall10.
      rewrite length_seq in Hi. exact Hi. }
    rewrite (omap_all_lookup _ _ i i Hall10) in Hi by (apply lookup_seq_lt; exact Hlt).
    exact (Hanswer i response Hi).
  - rewrite Hhandled. apply Permutation_app_head. rewrite Hperm.
    vm_compute. reflexivity.
  - unfold test_Create_multiple_barrels_concurrently, mbind, test_bind.
    rewrite Hall. reflexivity.
  - unfold test_Create_multiple_barrels_concurrently, mbind, test_bind.
    rewrite Hall. unfold attempt. cbn [fst]. apply for_of_status.
Qed.

End ConcurrencyProperties.

(** The theorem at the lenient service, which handles the ten requests last
    first: the ten responses come back. *)
Lemma C8_concurrent_creation_witness :
  reverse (seq 0 10) ≡ₚ seq 0 10 /\
  exists responses fx',
    Promise_all_post lenient_service (reverse (seq 0 10)) barrelsEndpoint barrelPayloads start =
      (Returns responses, fx') /\
    length responses = 10.
Proof.
  split; [apply reverse_Permutation|].
  destruct (C8_concurrent_creation lenient_service (reverse (seq 0 10)) start
              (reverse_Permutation _))
    as (_ & _ & responses & fx' & Hall & Hlen & _).
  exists responses, fx'. split; [exact Hall | exact Hlen].
Defined.

(** The theorem at the ids of the suite: barrelObject accepts the barrel
    { id: 'not-guid', qr: 'T', rfid: 'T', nfc: 'T' }, and measurementObject
    rejects a measurement with that id. *)
Lemma C9_identifier_formats_witness :
  z.safeParse_success barrelObject
    (object [("id", VStr "not-guid"); ("qr", VStr "T"); ("rfid", VStr "T"); ("nfc", VStr "T")])
  = true /\
  z.safeParse_success measurementObject
    (object [("id", VStr "not-guid");
             ("barrelId", VStr "f47ac10b-58cc-4372-a567-0e02b2c3d479");
             ("dirtLevel", VNum 10%float); ("weight", VNum 10%float)])
  = false.
Proof.
  split.
  - apply (proj1 C9_identifier_formats "not-guid" "T" "T" "T"); discriminate.
  - apply (proj1 (proj2 (proj2 C9_identifier_formats))).
    + rewrite field_of_object. discriminate.
    + rewrite field_of_object. intros (s & [= <-] & H). vm_compute in H. discriminate.
Defined.

(** ** Worked examples *)

(** The body the service sends when qr is missing passes the Qr checker. *)
Example checkQr_on_service_body :
  BarrelHelper.checkQrRequiredErrorResponse
    (object [("title", VStr "One or more validation errors occurred.");
             ("status", VNum 400%float);
             ("errors", object [("Qr", VArr [VStr "The Qr field is required."])])])
  = Returns tt.
Proof. vm_compute. reflexivity. Qed.

(** A message that contains the expected one and more does not pass. *)
Example checkQr_on_longer_message :
  BarrelHelper.checkQrRequiredErrorResponse
    (object [("title", VStr "One or more validation errors occurred.");
             ("errors", object [("Qr", VArr [VStr "Error: The Qr field is required."])])])
  = Throws (ExpectationFailed "toBe").
Proof. vm_compute. reflexivity. Qed.

(** A body without errors fails at the envelope. *)
Example checkWeight_without_errors :
  MeasurementHelper.checkWeightRequiredErrorResponse
    (object [("title", VStr "One or more validation errors occurred.")])
  = Throws (ExpectationFailed "toBeTruthy").
Proof. vm_compute. reflexivity. Qed.

(** UUID formats: a version 4 UUID, the id of the suite's negative test, and
    a ULID. *)
Example uuid_regex_examples :
  z.uuid_regex "f47ac10b-58cc-4372-a567-0e02b2c3d479" = true /\
  z.uuid_regex "not-guid" = false /\
  z.uuid_regex "01ARZ3NDEKTSV4RRFFQ69G5FAV" = false.
Proof. repeat split; vm_compute; reflexivity. Qed.

(** The first barrel and the first measurement that the generators give from
    [first_run]. *)
Example prepareBarrelObject_first_run :
  (prepareBarrelObject first_run).1 =
  object [("qr", VStr "WoQiKcE6y0sUmOgIaC4wY");
          ("rfid", VStr "01M6CRWH003J1GZEXCVAS8Q6N4");
          ("nfc", VStr "ZoDShwLapETixMbqFUjy")].
Proof. vm_compute. reflexivity. Qed.

Example prepareMeasurementObject_first_run :
  (prepareMeasurementObject "f47ac10b-58cc-4372-a567-0e02b2c3d479" first_run).1 =
  object [("barrelId", VStr "f47ac10b-58cc-4372-a567-0e02b2c3d479");
          ("dirtLevel", VNum (faker.number_of_Z 113 / faker.number_of_Z 100)%float);
          ("weight", VNum (faker.number_of_Z 1925 / faker.number_of_Z 10)%float)].
Proof. vm_compute. reflexivity. Qed.

(** A JSON response with a valid barrel passes the barrel validator; the
    same body under a text content type does not. *)
Example checkBarrelResponse_examples :
  let body := object [("id", VStr "f47ac10b-58cc-4372-a567-0e02b2c3d479");
                      ("qr", VStr "T"); ("rfid", VStr "T"); ("nfc", VStr "T")] in
  BarrelHelper.checkBarrelResponseAndReturnBody
    {| status := 201;
       headers := {["content-type" := "application/json; charset=utf-8"]};
       body_json := Some body |} = Returns body /\
  BarrelHelper.checkBarrelResponseAndReturnBody
    {| status := 201;
       headers := {["content-type" := "text/plain"]};
       body_json := Some body |} = Throws (ExpectationFailed "toContain").
Proof. split; vm_compute; reflexivity. Qed.

(** The negative dirtLevel scenario passes against the rejecting service and
    fails against the lenient one; the concurrency scenario passes against
    the lenient service, the requests handled last first. *)
Example scenarios_run :
  let barrel := object [("id", VStr "f47ac10b-58cc-4372-a567-0e02b2c3d479")] in
  (test_Dirt_level_is_negative_number rejecting_service barrel start).1 = Returns tt /\
  (test_Dirt_level_is_negative_number lenient_service barrel start).1 =
    Throws (ExpectationFailed "toBe") /\
  (test_Create_multiple_barrels_concurrently lenient_service (reverse (seq 0 10)) start).1 =
    Returns tt.
Proof. repeat split; vm_compute; reflexivity. Qed.

(** * More properties *)

(** ** Assertion blocks, step by step *)

Lemma seq_returns (m rest : outcome unit) :
  (m ;; rest) = Returns tt <-> m = Returns tt /\ rest = Returns tt.
Proof.
  rewrite bind_returns. split.
  - intros ([] & Hm & Hrest). auto.
  - intros [Hm Hrest]. exists tt. auto.
Qed.

Lemma member_bind_returns {B} (k : string) (v : value) (f : value -> outcome B) (b : B) :
  (member k v ≫= f) = Returns b <-> nullish v = false /\ f (field_of k v) = Returns b.
Proof.
  rewrite bind_returns. setoid_rewrite member_returns. split.
  - intros (a & [Hv ->] & Hf). auto.
  - intros [Hv Hf]. eauto.
Qed.

Lemma first_bind_returns {B} (v : value) (f : value -> outcome B) (b : B) :
  (first v ≫= f) = Returns b <-> nullish v = false /\ f (first_of v) = Returns b.
Proof.
  unfold first. destruct (nullish v); cbn [mbind outcome_bind]; split;
    try discriminate; intuition discriminate.
Qed.

Lemma json_bind_returns {B} (response : APIResponse) (f : value -> outcome B) (b : B) :
  (json response ≫= f) = Returns b <->
  exists body, body_json response = Some body /\ f body = Returns b.
Proof.
  unfold json. destruct (body_json response) as [body|]; cbn [mbind outcome_bind]; split.
  - eauto.
  - intros (body' & [= <-] & Hf). exact Hf.
  - discriminate.
  - intros (body' & H & _). discriminate.
Qed.

Lemma validator_bind_returns {B} (schema : z.ZodType) (response : APIResponse)
    (f : value -> outcome B) (b : B) :
  ((expect.toContain (headers response !! "content-type") "application/json" ;;
    responseBody ← json response;
    expect.toBeTruthy responseBody ;;
    expect.toBeTruthy (VBool (z.safeParse_success schema responseBody)) ;;
    mret responseBody) ≫= f) = Returns b <->
  exists body, valid_response schema response body /\ f body = Returns b.
Proof.
  rewrite bind_returns. setoid_rewrite check_response_returns. reflexivity.
Qed.

Lemma equals_string (v : value) (s : string) : equals v (VStr s) = true <-> v = VStr s.
Proof. destruct v; try (split; discriminate). apply (same_value_string (VStr _)). Qed.

Lemma toEqual_string_returns (v : value) (s : string) (u : unit) :
  toEqual v (VStr s) = Returns u <-> v = VStr s.
Proof.
  unfold toEqual. rewrite <- equals_string.
  destruct u, (equals v (VStr s)); split; congruence.
Qed.

Lemma same_value_number (v : value) (x : float) : same_value v (VNum x) = true <-> v = VNum x.
Proof.
  destruct v; simpl; try (split; discriminate).
  rewrite FloatAxioms.Leibniz.eqb_spec. split; congruence.
Qed.

Lemma toBe_number_returns (v : value) (x : float) (u : unit) :
  expect.toBe v (VNum x) = Returns u <-> v = VNum x.
Proof.
  unfold expect.toBe. rewrite <- same_value_number.
  destruct u, (same_value v (VNum x)); split; congruence.
Qed.

Lemma toBeFalsy_returns (v : value) (u : unit) : toBeFalsy v = Returns u <-> truthy v = false.
Proof. unfold toBeFalsy. destruct u, (truthy v); split; congruence. Qed.

(** Turns an assertion block that returns into the conjunction of what its
    steps ask. *)
Ltac read_block :=
  repeat (first
    [ setoid_rewrite seq_returns
    | setoid_rewrite member_bind_returns
    | setoid_rewrite first_bind_returns
    | setoid_rewrite json_bind_returns
    | setoid_rewrite validator_bind_returns
    | setoid_rewrite statusToBe_returns
    | setoid_rewrite toBeTruthy_returns
    | setoid_rewrite toBeFalsy_returns
    | setoid_rewrite toBe_string_returns
    | setoid_rewrite toBe_number_returns
    | setoid_rewrite toEqual_string_returns ];
    cbv beta).

(** ** Scenarios, step by step *)

Lemma nullish_object (fields : list (string * value)) : nullish (object fields) = false.
Proof. reflexivity. Qed.

Lemma member_object (k : string) (fields : list (string * value)) :
  member k (object fields) = Returns (field_of k (object fields)).
Proof. reflexivity. Qed.

(** Assigning to a property of an object literal appends a field. *)
Lemma assign_object (k : string) (x : value) (fields : list (string * value)) :
  assign k x (object fields) = Returns (object (fields ++ [(k, x)])).
Proof. unfold assign, object. rewrite foldl_app. reflexivity. Qed.

Lemma with_field_object (k : string) (x : value) (fields : list (string * value)) :
  with_field k x (object fields) = object (fields ++ [(k, x)]).
Proof. unfold with_field, object. rewrite foldl_app. reflexivity. Qed.


Section MoreProperties.

Context {World : Type}.
Variable serve : Request -> World -> APIResponse * World.
Variable number_to_string : float -> string.

Lemma run_bind {A B} (f : A -> @Test World B) (m : @Test World A) (fx : @Fixtures World) :
  @mbind _ (@test_bind World) _ _ f m fx =
  match m fx with
  | (Returns a, fx') => f a fx'
  | (Throws e, fx') => (Throws e, fx')
  end.
Proof. reflexivity. Qed.

Lemma run_draw {A} (g : faker.Gen A) (fx : @Fixtures World) :
  draw g fx =
  (Returns (g (fk fx)).1,
   {| fk := (g (fk fx)).2; world := world fx; handled := handled fx |}).
Proof. unfold draw. destruct (g (fk fx)). reflexivity. Qed.

Lemma run_send (m : Method) (url : string) (data : value) (fx : @Fixtures World) :
  request_send serve m url data fx =
  (Returns (serve {| method := m; url := url; data := data |} (world fx)).1,
   {| fk := fk fx;
      world := (serve {| method := m; url := url; data := data |} (world fx)).2;
      handled := handled fx ++ [{| method := m; url := url; data := data |}] |}).
Proof. unfold request_send. destruct (serve _ (world fx)). reflexivity. Qed.

Lemma run_post (url : string) (data : value) (fx : @Fixtures World) :
  request_post serve url data fx = request_send serve POST url data fx.
Proof. reflexivity. Qed.

Lemma run_attempt {A} (m : outcome A) (fx : @Fixtures World) : attempt m fx = (m, fx).
Proof. reflexivity. Qed.

Lemma run_attempt_member (k : string) (fields : list (string * value)) (fx : @Fixtures World) :
  attempt (member k (object fields)) fx =
  (Returns (default VUndefined (lookup_fields k fields)), fx).
Proof. unfold attempt, member. rewrite nullish_object, field_of_object. reflexivity. Qed.

Lemma run_attempt_assign (k : string) (x : value) (fields : list (string * value))
    (fx : @Fixtures World) :
  attempt (assign k x (object fields)) fx = (Returns (object (fields ++ [(k, x)])), fx).
Proof. unfold attempt. rewrite assign_object. reflexivity. Qed.

End MoreProperties.

(** Runs the steps of a scenario up to its last block of assertions; [shape]
    says what a generator returns. *)
Ltac run_scenario_with shape :=
  repeat (first
    [ rewrite shape
    | rewrite run_bind
    | rewrite run_draw
    | rewrite run_post
    | rewrite run_send
    | rewrite run_attempt_member
    | rewrite run_attempt_assign
    | rewrite run_attempt ];
    cbv beta iota zeta; cbn [fk world handled fst snd]).

Ltac run_scenario :=
  repeat (first
    [ rewrite run_bind
    | rewrite run_draw
    | rewrite run_post
    | rewrite run_send
    | rewrite run_attempt_member
    | rewrite run_attempt_assign
    | rewrite run_attempt ];
    cbv beta iota zeta; cbn [fk world handled fst snd]).

(** ** What the further scenarios ask of the service *)

Lemma valid_barrel_body (response : APIResponse) (body : value) :
  valid_response barrelObject response body ->
  nullish body = false /\
  (truthy (field_of "id" body) = true <-> is_nonempty_string (field_of "id" body)).
Proof.
  intros (_ & _ & _ & Hschema). apply barrelObject_accepts in Hschema.
  destruct Hschema as ([o ->] & Hid & _). split; [reflexivity|].
  destruct Hid as [Hid|[s Hid]]; rewrite Hid; cbn [truthy]; split.
  - discriminate.
  - intros (s & H & _). discriminate.
  - intros H. exists s. split; [reflexivity|]. intros ->. discriminate.
  - intros (s' & [= <-] & Hne). destruct (String.eqb_spec s ""); [contradiction | reflexivity].
Qed.

Lemma valid_measurement_body (response : APIResponse) (body : value) :
  valid_response measurementObject response body ->
  nullish body = false /\
  (truthy (field_of "id" body) = true <-> is_uuid_string (field_of "id" body)) /\
  is_uuid_string (field_of "barrelId" body).
Proof.
  intros (_ & _ & _ & Hschema). apply measurementObject_accepts in Hschema.
  destruct Hschema as ([o ->] & Hid & Hbarrel & _). split; [reflexivity|].
  split; [|exact Hbarrel].
  destruct Hid as [Hid|(s & Hid & Huuid)]; rewrite Hid; cbn [truthy]; split.
  - discriminate.
  - intros (s & H & _). discriminate.
  - intros _. exists s. split; [reflexivity | exact Huuid].
  - intros _. destruct s; [discriminate Huuid | reflexivity].
Qed.

Lemma matches_length (classes : list (ascii -> bool)) (s : string) :
  z.matches classes s = true -> String.length s = length classes.
Proof.
  revert s. induction classes as [|cls classes IH]; intros [|c s] H; try discriminate.
  - reflexivity.
  - cbn in H. apply andb_true_iff in H as [_ H]. cbn. f_equal. exact (IH s H).
Qed.

(** Every string of the UUID format has 36 characters. *)
Lemma uuid_regex_length (s : string) : z.uuid_regex s = true -> String.length s = 36.
Proof.
  unfold z.uuid_regex. rewrite !orb_true_iff. intros [[H|H]|H].
  - apply matches_length in H. exact H.
  - apply String.eqb_eq in H. subst s. reflexivity.
  - apply String.eqb_eq in H. subst s. reflexivity.
Qed.

Lemma ulid_length (st : faker.state) : String.length (faker.string.ulid st).1 = 26.
Proof.
  unfold faker.string.ulid.
  destruct (fromCharacters_spec faker.CROCKFORDS_BASE32 16 st) as (Hrandom & _);
    [discriminate|].
  destruct (faker.fromCharacters faker.CROCKFORDS_BASE32 16 st) as [random st'].
  cbn [fst] in *. rewrite string_length_append, dateToBase32_length, Hrandom. reflexivity.
Qed.

Lemma toContainValue_returns (v : value) (fragment : string) (u : unit) :
  toContainValue v fragment = Returns u <-> mentions v fragment.
Proof.
  unfold mentions. destruct u, v as [| | | |s|l|o]; cbn [toContainValue];
    try (split; [discriminate | intros [(? & ? & ?)|(? & ? & _)]; discriminate]).
  - rewrite toContain_returns. setoid_rewrite includes_spec. split.
    + intros (s' & [= <-] & pre & post & ->). left. eauto.
    + intros [(pre & post & [= ->])|(l & H & _)]; [eauto | discriminate].
  - destruct (existsb _ l) eqn:E; split.
    + intros _. right. exists l. split; [reflexivity|].
      apply existsb_exists in E as (item & Hin & Hsame).
      apply same_value_string in Hsame. subst item. apply list_elem_of_In. exact Hin.
    + reflexivity.
    + discriminate.
    + intros [(? & ? & ?)|(l' & [= <-] & Hin)]; [discriminate|].
      assert (existsb (fun item => same_value item (VStr fragment)) l = true) as E'.
      { apply existsb_exists. exists (VStr fragment).
        split; [apply list_elem_of_In; exact Hin | apply same_value_string; reflexivity]. }
      congruence.
Qed.

(** The assertions of the scenarios that send a value of a wrong type. *)
Lemma conversion_assertions_return (response : APIResponse) (path fragment : string) :
  (expect.statusToBe (status response) 400 ;;
   responseBody ← json response;
   BarrelHelper.checkErrorResponse responseBody ;;
   errors ← member "errors" responseBody;
   barrel ← member "barrel" errors;
   expect.toBeTruthy barrel ;;
   message ← first barrel;
   expect.toBe message (VStr "The barrel field is required.") ;;
   entry ← member path errors;
   expect.toBeTruthy entry ;;
   message ← first entry;
   toContainValue message fragment) = Returns tt
  <-> status response = 400%Z /\
      exists body, body_json response = Some body /\ conversion_error path fragment body.
Proof.
  unfold BarrelHelper.checkErrorResponse, conversion_error, required_error.
  read_block. setoid_rewrite toContainValue_returns.
  split; intros (Hstatus & body & Hjson & H); (split; [exact Hstatus|]); exists body;
    (split; [exact Hjson|]).
  - tauto.
  - destruct H as ((Htitle & Herrors & Hbarrel & Hfirst) & Hentry & Hmentions).
    pose proof (truthy_not_nullish _ Herrors).
    pose proof (truthy_not_nullish _ Hbarrel).
    pose proof (truthy_not_nullish _ Hentry).
    pose proof (field_of_truthy _ _ Herrors) as Hbody.
    pose proof (truthy_not_nullish _ Hbody).
    tauto.
Qed.

(** ** What a JSON body carries of an object literal *)

Lemma JSON_body_undefined (v : value) : is_undefined (JSON_body v) = is_undefined v.
Proof.
  destruct v as [| | |x| | |]; try reflexivity.
  cbn [JSON_body]. destruct (PrimFloat.is_finite x); [|reflexivity].
  destruct (PrimFloat.is_zero x); reflexivity.
Qed.

Lemma JSON_body_object_lookup (fields : list (string * value)) (k : string) :
  match JSON_body (object fields) with
  | VObj o => o !! k
  | _ => None
  end = sent_under k fields.
Proof.
  unfold object, sent_under. cbn [JSON_body].
  rewrite map_lookup_filter, lookup_fmap, fields_lookup.
  destruct (lookup_fields k fields) as [v|]; [|rewrite lookup_empty; reflexivity].
  cbn. rewrite JSON_body_undefined.
  destruct (is_undefined v); reflexivity.
Qed.

Lemma JSON_body_object_ext (l1 l2 : list (string * value)) :
  (forall k, sent_under k l1 = sent_under k l2) ->
  JSON_body (object l1) = JSON_body (object l2).
Proof.
  intros H.
  pose proof (JSON_body_object_lookup l1) as H1.
  pose proof (JSON_body_object_lookup l2) as H2.
  unfold object in *. cbn [JSON_body] in *.
  f_equal. apply map_eq. intros k. rewrite H1, H2. apply H.
Qed.

(** Cases on whether the key [k] is one of the literal keys it is compared
    with. *)
Ltac by_key k :=
  unfold sent_under; cbn [lookup_fields];
  repeat match goal with
         | |- context [String.eqb ?a k] =>
             destruct (String.eqb_spec a k) as [<-|?]; [reflexivity|]
         end;
  reflexivity.

(** ** faker.string.uuid *)

Lemma replaceAll_matches (target : ascii) (replacer : faker.Gen string)
    (pre post : list (ascii -> bool)) :
  Forall2 (replaced_by target replacer) pre post ->
  forall s st,
    z.matches pre s = true ->
    z.matches post (replaceAll target replacer s st).1 = true.
Proof.
  induction 1 as [|p q pre post Hpq _ IH]; intros [|c s] st Hs; try discriminate.
  - reflexivity.
  - cbn [z.matches] in Hs. apply andb_true_iff in Hs as [Hc Hs].
    specialize (Hpq c Hc). cbn [replaceAll].
    destruct (Ascii.eqb c target).
    + destruct (Hpq st) as (d & Hd & Hq).
      destruct (replacer st) as [replacement st1]. cbn [fst] in Hd. subst replacement.
      specialize (IH s st1 Hs).
      destruct (replaceAll target replacer s st1) as [rest st2]. cbn [fst] in *.
      change (String d "" +:+ rest) with (String d rest).
      cbn [z.matches]. rewrite Hq, IH. reflexivity.
    + specialize (IH s st Hs).
      destruct (replaceAll target replacer s st) as [rest st2]. cbn [fst] in *.
      cbn [fst z.matches]. rewrite Hpq, IH. reflexivity.
Qed.

Lemma replaced_literal (target c0 : ascii) (replacer : faker.Gen string) (q : ascii -> bool) :
  Ascii.eqb c0 target = false -> q c0 = true ->
  replaced_by target replacer (Ascii.eqb c0) q.
Proof.
  intros Hne Hq c Hc. apply Ascii.eqb_eq in Hc. subst c. rewrite Hne. exact Hq.
Qed.

Lemma replaced_target (target : ascii) (replacer : faker.Gen string) (q : ascii -> bool) :
  (forall st, exists d, (replacer st).1 = String d "" /\ q d = true) ->
  replaced_by target replacer (Ascii.eqb target) q.
Proof.
  intros H c Hc. apply Ascii.eqb_eq in Hc. subst c. rewrite Ascii.eqb_refl. exact H.
Qed.

Lemma hex_digit_0_15 (st : faker.state) :
  exists d, (faker_number_hex 0 15 st).1 = String d "" /\
            z.one_of "0123456789abcdef" d = true.
Proof.
  unfold faker_number_hex. pose proof (int_range 0 15 st ltac:(lia)) as Hrange.
  destruct (faker.int 0 15 st) as [i st']. cbn [fst] in *.
  assert (exists n, (n < 16)%nat /\ i = Z.of_nat n) as (n & Hn & ->)
    by (exists (Z.to_nat i); lia).
  do 16 (destruct n as [|n]; [eexists; split; vm_compute; reflexivity|]). lia.
Qed.

Lemma hex_digit_8_11 (st : faker.state) :
  exists d, (faker_number_hex 8 11 st).1 = String d "" /\ z.one_of "89abAB" d = true.
Proof.
  unfold faker_number_hex. pose proof (int_range 8 11 st ltac:(lia)) as Hrange.
  destruct (faker.int 8 11 st) as [i st']. cbn [fst] in *.
  assert (exists n, (n < 4)%nat /\ i = Z.of_nat (8 + n)) as (n & Hn & ->)
    by (exists (Z.to_nat i - 8)%nat; lia).
  do 4 (destruct n as [|n]; [eexists; split; vm_compute; reflexivity|]). lia.
Qed.

Lemma replaced_digit (replacer : faker.Gen string) :
  replaced_by "y" replacer (z.one_of "0123456789abcdef") z.hex.
Proof.
  intros c Hc.
  destruct c as [[] [] [] [] [] [] [] []]; vm_compute in Hc; try discriminate Hc;
    reflexivity.
Qed.

(** Whatever faker draws, [faker.string.uuid()] has the format of
    [z.uuid()]. *)
Lemma faker_uuid_format (st : faker.state) : z.uuid_regex (faker_string_uuid st).1 = true.
Proof.
  unfold faker_string_uuid, z.uuid_regex.
  pose proof (replaceAll_matches "x" (faker_number_hex 0 15)
                (map Ascii.eqb (String.list_ascii_of_string
                                  "xxxxxxxx-xxxx-4xxx-yxxx-xxxxxxxxxxxx"))
                uuid_with_y) as Hx.
  pose proof (replaceAll_matches "y" (faker_number_hex 8 11) uuid_with_y z.uuid_classes)
    as Hy.
  assert (forall s, z.matches uuid_with_y s = true ->
                    forall st', z.matches z.uuid_classes
                                  (replaceAll "y" (faker_number_hex 8 11) s st').1 = true)
    as Hy'.
  { intros s Hs st'. apply Hy; [|exact Hs].
    cbv [uuid_with_y z.uuid_classes repeat app].
    repeat (apply List.Forall2_cons;
            [first [ apply replaced_digit
                   | apply replaced_target; exact hex_digit_8_11
                   | apply replaced_literal; reflexivity ]|]).
    apply List.Forall2_nil. }
  assert (z.matches uuid_with_y
            (replaceAll "x" (faker_number_hex 0 15)
               "xxxxxxxx-xxxx-4xxx-yxxx-xxxxxxxxxxxx" st).1 = true) as Hx'.
  { apply Hx; [|reflexivity].
    cbv [uuid_with_y repeat app map String.list_ascii_of_string].
    repeat (apply List.Forall2_cons;
            [first [ apply replaced_target; exact hex_digit_0_15
                   | apply replaced_literal; reflexivity ]|]).
    apply List.Forall2_nil. }
  clear Hx Hy.
  destruct (replaceAll "x" _ _ st) as [s st1]. cbn [fst] in Hx'.
  rewrite (Hy' s Hx' st1). reflexivity.
Qed.

(** A generated measurement whose barrelId has the UUID format conforms to
    the schema. *)
Lemma generated_measurement_conforms (barrelId : string) (st : faker.state) :
  z.uuid_regex barrelId = true ->
  measurementObject (prepareMeasurementObject barrelId st).1 = true.
Proof.
  intros Huuid.
  destruct (prepareMeasurementObject_shape barrelId st) as (k1 & k2 & st' & Heq & Hk1 & Hk2).
  rewrite Heq. cbn [fst].
  pose proof (dirtLevel_range k1 Hk1) as Hd.
  pose proof (weight_range k2 Hk2) as Hw.
  unfold dirtLevel_ok, weight_ok in Hd, Hw. cbn zeta in Hd, Hw.
  apply andb_true_iff in Hd as [_ Hd32]. apply andb_true_iff in Hw as [_ Hw32].
  unfold measurementObject. rewrite schema_of_object.
  eval_fields. rewrite Hd32, Hw32. cbn [z.optional z.uuid andb].
  rewrite andb_true_r. exact Huuid.
Qed.

Lemma tag_accepted (s : string) (n : nat) :
  String.length s = S n -> z.min 1 z.string (VStr s) = true.
Proof. destruct s; [discriminate | reflexivity]. Qed.

Lemma same_value_eq (a b : value) : same_value a b = true -> a = b.
Proof.
  destruct a, b; cbn [same_value]; try discriminate; try reflexivity; intros H.
  - apply Bool.eqb_prop in H. congruence.
  - apply FloatAxioms.Leibniz.eqb_spec in H. congruence.
  - apply String.eqb_eq in H. congruence.
Qed.

Lemma toBe_returns (a b : value) (u : unit) :
  expect.toBe a b = Returns u <-> same_value a b = true.
Proof. unfold expect.toBe. destruct u, (same_value a b); split; congruence. Qed.

Lemma same_value_id (a b : value) :
  a = VUndefined \/ is_uuid_string a -> (same_value a b = true <-> a = b).
Proof.
  intros Ha. split; [apply same_value_eq|]. intros <-.
  destruct Ha as [->|(s & -> & _)]; [reflexivity|]. apply String.eqb_refl.
Qed.

Section ScenarioCharacterisations.

Context {World : Type}.
Variable serve : Request -> World -> APIResponse * World.
Variable number_to_string : float -> string.

(** X1: 'Create valid barrel' passes exactly when the service answers the
    generated barrel with status 201 and a JSON body that is a valid barrel,
    has a non-empty string as id and repeats the three tags sent. *)
Theorem X1_create_valid_barrel (fx : @Fixtures World) :
  (test_Create_valid_barrel serve fx).1 = Returns tt <->
  status (response_to_post serve "/barrels" (prepareBarrelObject (fk fx)).1 fx) = 201%Z /\
  exists body,
    valid_response barrelObject
      (response_to_post serve "/barrels" (prepareBarrelObject (fk fx)).1 fx) body /\
    is_nonempty_string (field_of "id" body) /\
    echoes_tags body (prepareBarrelObject (fk fx)).1.
Proof.
  unfold test_Create_valid_barrel, response_to_post, post_request, barrelsEndpoint, echoes_tags.
  destruct (prepareBarrelObject_shape (fk fx)) as (qr & rfid & nfc & Hshape & _).
  run_scenario_with Hshape.
  unfold BarrelHelper.checkBarrelResponseAndReturnBody.
  read_block. rewrite !field_of_object. eval_fields. read_block.
  split; intros (Hstatus & body & Hvalid & H); (split; [exact Hstatus|]); exists body;
    destruct (valid_barrel_body _ _ Hvalid) as [Hobject Hid];
    rewrite ?nullish_object; tauto.
Qed.

(** X2: 'Extra body parameters will be ignored' posts the generated barrel
    with meta: 'data' added and passes exactly when the service answers 201
    with a valid barrel that has a non-empty string as id, repeats the three
    tags and has no truthy meta. *)
Theorem X2_extra_body_parameters (fx : @Fixtures World) :
  (test_Extra_body_parameters_will_be_ignored serve fx).1 = Returns tt <->
  status (response_to_post serve "/barrels"
            (with_field "meta" (VStr "data") (prepareBarrelObject (fk fx)).1) fx) = 201%Z /\
  exists body,
    valid_response barrelObject
      (response_to_post serve "/barrels"
         (with_field "meta" (VStr "data") (prepareBarrelObject (fk fx)).1) fx) body /\
    is_nonempty_string (field_of "id" body) /\
    echoes_tags body (prepareBarrelObject (fk fx)).1 /\
    truthy (field_of "meta" body) = false.
Proof.
  unfold test_Extra_body_parameters_will_be_ignored, response_to_post, post_request,
    barrelsEndpoint, echoes_tags.
  destruct (prepareBarrelObject_shape (fk fx)) as (qr & rfid & nfc & Hshape & _).
  run_scenario_with Hshape. rewrite with_field_object.
  unfold BarrelHelper.checkBarrelResponseAndReturnBody.
  read_block. rewrite !field_of_object. cbn [app]. eval_fields. read_block.
  split; intros (Hstatus & body & Hvalid & H); (split; [exact Hstatus|]); exists body;
    destruct (valid_barrel_body _ _ Hvalid) as [Hobject Hid];
    pose proof (proj1 (proj2 (proj2 Hvalid))) as Htruthy;
    rewrite ?nullish_object; tauto.
Qed.

(** X3: 'Get created barrel' gives the barrel it posts a ULID as id, a
    string of 26 characters that is never of the UUID format, and requests
    /barrels/<that id>; it passes exactly when that request is answered with
    status 200 and a valid barrel that repeats the id and the three tags. *)
Theorem X3_get_created_barrel (fx : @Fixtures World) :
  let ulid := (faker.string.ulid (after_barrel (fk fx))).1 in
  let barrel := with_field "id" (VStr ulid) (prepareBarrelObject (fk fx)).1 in
  let created := serve (post_request "/barrels" barrel) (world fx) in
  let response := (serve (bare_request GET ("/barrels/" +:+ ulid)) created.2).1 in
  String.length ulid = 26 /\
  z.uuid_regex ulid = false /\
  ((test_Get_created_barrel serve number_to_string fx).1 = Returns tt <->
   status response = 200%Z /\
   exists body,
     valid_response barrelObject response body /\
     field_of "id" body = VStr ulid /\
     echoes_tags body barrel).
Proof.
  cbv zeta. split; [apply ulid_length|]. split.
  { destruct (z.uuid_regex _) eqn:E; [|reflexivity].
    apply uuid_regex_length in E. rewrite ulid_length in E. discriminate. }
  unfold test_Get_created_barrel, bare_request, post_request, barrelsEndpoint, echoes_tags,
    request_get.
  destruct (prepareBarrelObject_shape (fk fx)) as (qr & rfid & nfc & Hshape & _).
  run_scenario_with Hshape. rewrite with_field_object.
  generalize (faker.string.ulid (after_barrel (fk fx))).1. intros ulid.
  cbn [app]. eval_fields. cbn [String_of].
  change ("/barrels" +:+ "/" +:+ ulid) with ("/barrels/" +:+ ulid).
  unfold BarrelHelper.checkBarrelResponseAndReturnBody.
  read_block. rewrite !field_of_object. eval_fields. read_block.
  split; intros (Hstatus & body & Hvalid & H); (split; [exact Hstatus|]); exists body;
    destruct (valid_barrel_body _ _ Hvalid) as [Hobject Hid];
    rewrite ?nullish_object; tauto.
Qed.

(** X4: 'Delete barrel' reads the id of the barrel it generated, which has
    none, so whatever the service answers to the create, the scenario deletes
    and then fetches /barrels/undefined; it passes exactly when the service
    answers these two requests with 204 and 404. *)
Theorem X4_delete_barrel (fx : @Fixtures World) :
  let barrel := (prepareBarrelObject (fk fx)).1 in
  let created := serve (post_request "/barrels" barrel) (world fx) in
  let deleted := serve (bare_request DELETE "/barrels/undefined") created.2 in
  let fetched := serve (bare_request GET "/barrels/undefined") deleted.2 in
  ((test_Delete_barrel serve number_to_string fx).1 = Returns tt <->
   status deleted.1 = 204%Z /\ status fetched.1 = 404%Z) /\
  handled (test_Delete_barrel serve number_to_string fx).2 =
    (handled fx ++
     [post_request "/barrels" barrel; bare_request DELETE "/barrels/undefined"] ++
     (if (status deleted.1 =? 204)%Z then [bare_request GET "/barrels/undefined"] else []))%list.
Proof.
  cbv zeta.
  unfold test_Delete_barrel, bare_request, post_request, barrelsEndpoint,
    request_get, request_delete.
  destruct (prepareBarrelObject_shape (fk fx)) as (qr & rfid & nfc & Hshape & _).
  run_scenario_with Hshape.
  eval_fields. cbn [String_of].
  change ("/barrels" +:+ "/" +:+ "undefined") with "/barrels/undefined".
  unfold expect.statusToBe.
  match goal with |- context [Z.eqb ?s 204] =>
    destruct (Z.eqb_spec s 204) as [H204|H204] end.
  - run_scenario. cbn [fst snd]. rewrite <- !app_assoc. cbn [app].
    split; [|reflexivity].
    match goal with |- context [Z.eqb ?s 404] =>
      destruct (Z.eqb_spec s 404) as [H404|H404] end.
    + tauto.
    + split; [discriminate | tauto].
  - run_scenario. cbn [fst snd]. rewrite <- !app_assoc. cbn [app].
    split; [|reflexivity]. split; [discriminate | tauto].
Qed.

(** X5: the scenarios that send a value of a wrong type, 'Post - ID is not
    guid format' and 'QR attribute is a number', pass exactly when the service
    answers 400 with the envelope, 'The barrel field is required.' first under
    barrel, and under $.id or $.qr a first message that contains the
    conversion text, whatever stands around it. *)
Theorem X5_type_conversion_scenarios (fx : @Fixtures World) :
  ((test_Post_ID_is_not_guid_format serve fx).1 = Returns tt <->
   let response :=
     response_to_post serve "/barrels"
       (with_field "id" (VStr "not-guid") (prepareBarrelObject (fk fx)).1) fx in
   status response = 400%Z /\
   exists body,
     body_json response = Some body /\
     conversion_error "$.id" "The JSON value could not be converted to System.Guid" body) /\
  ((test_QR_attribute_is_a_number serve fx).1 = Returns tt <->
   let response :=
     response_to_post serve "/barrels"
       (object [("qr", VNum 123%float); ("rfid", VStr "filled"); ("nfc", VStr "filled")]) fx in
   status response = 400%Z /\
   exists body,
     body_json response = Some body /\
     conversion_error "$.qr" "The JSON value could not be converted to System.String" body).
Proof.
  cbv zeta. split.
  - unfold test_Post_ID_is_not_guid_format, response_to_post, post_request, barrelsEndpoint.
    destruct (prepareBarrelObject_shape (fk fx)) as (qr & rfid & nfc & Hshape & _).
    run_scenario_with Hshape. rewrite with_field_object.
    apply conversion_assertions_return.
  - unfold test_QR_attribute_is_a_number, response_to_post, post_request, barrelsEndpoint,
      jsonInvalidValueStringMessage.
    run_scenario. apply conversion_assertions_return.
Qed.

(** X8: 'Create valid measurement' passes exactly when the service answers
    the generated measurement with 201 and a valid measurement whose id is a
    UUID, whose barrelId is the one sent and whose weight and dirtLevel are
    the numbers sent; so it cannot pass unless the id that beforeAll read
    from the created barrel has the UUID format. *)
Theorem X8_create_valid_measurement (barrelId : string) (fx : @Fixtures World) :
  let measurement := (prepareMeasurementObject barrelId (fk fx)).1 in
  let response := response_to_post serve "/measurements" measurement fx in
  ((test_Create_valid_measurement serve barrelId fx).1 = Returns tt <->
   status response = 201%Z /\
   exists body,
     valid_response measurementObject response body /\
     is_uuid_string (field_of "id" body) /\
     field_of "barrelId" body = VStr barrelId /\
     field_of "weight" body = field_of "weight" measurement /\
     field_of "dirtLevel" body = field_of "dirtLevel" measurement) /\
  ((test_Create_valid_measurement serve barrelId fx).1 = Returns tt ->
   z.uuid_regex barrelId = true).
Proof.
  cbv zeta.
  assert ((test_Create_valid_measurement serve barrelId fx).1 = Returns tt <->
   status (response_to_post serve "/measurements"
             (prepareMeasurementObject barrelId (fk fx)).1 fx) = 201%Z /\
   exists body,
     valid_response measurementObject
       (response_to_post serve "/measurements"
          (prepareMeasurementObject barrelId (fk fx)).1 fx) body /\
     is_uuid_string (field_of "id" body) /\
     field_of "barrelId" body = VStr barrelId /\
     field_of "weight" body =
       field_of "weight" (prepareMeasurementObject barrelId (fk fx)).1 /\
     field_of "dirtLevel" body =
       field_of "dirtLevel" (prepareMeasurementObject barrelId (fk fx)).1) as Hiff.
  { unfold test_Create_valid_measurement, response_to_post, post_request,
      measurementsEndpoint.
    destruct (prepareMeasurementObject_shape barrelId (fk fx))
      as (k1 & k2 & st' & Hshape & _).
    run_scenario_with Hshape.
    unfold MeasurementHelper.checkMeasurementResponseAndReturnBody.
    read_block. rewrite !field_of_object, !nullish_object. eval_fields. read_block.
    split; intros (Hstatus & body & Hvalid & H); (split; [exact Hstatus|]); exists body;
      destruct (valid_measurement_body _ _ Hvalid) as (Hobject & Hid & _); tauto. }
  split; [exact Hiff|].
  intros Hpass. apply Hiff in Hpass as (_ & body & Hvalid & _ & Hecho & _).
  destruct (valid_measurement_body _ _ Hvalid) as (_ & _ & (s & Hs & Huuid)).
  congruence.
Qed.

(** X7: 'Post - Barrel does not exists\' always sends the service a
    well-formed request: the identifier that faker.string.uuid gives has the
    format of z.uuid() whatever faker draws, so the measurement conforms to
    measurementObject; the scenario first deletes /barrels/ followed by that
    identifier, ignoring the answer, and then passes exactly when the create
    is answered 404 with a body whose title is 'Barrel was not found.'. *)
Theorem X7_barrel_does_not_exist (fx : @Fixtures World) :
  let barrelId := (faker_string_uuid (fk fx)).1 in
  let measurement := (prepareMeasurementObject barrelId (faker_string_uuid (fk fx)).2).1 in
  let deleted := serve (bare_request DELETE ("/barrels/" +:+ barrelId)) (world fx) in
  let response := (serve (post_request "/measurements" measurement) deleted.2).1 in
  z.uuid_regex barrelId = true /\
  z.safeParse_success measurementObject measurement = true /\
  ((test_Post_Barrel_does_not_exists serve number_to_string fx).1 = Returns tt <->
   status response = 404%Z /\
   exists body,
     body_json response = Some body /\
     field_of "title" body = VStr "Barrel was not found.") /\
  handled (test_Post_Barrel_does_not_exists serve number_to_string fx).2 =
    (handled fx ++
     [bare_request DELETE ("/barrels/" +:+ barrelId);
      post_request "/measurements" measurement])%list.
Proof.
  cbv zeta. pose proof (faker_uuid_format (fk fx)) as Huuid.
  unfold test_Post_Barrel_does_not_exists, bare_request, post_request, measurementsEndpoint,
    request_delete, z.safeParse_success.
  run_scenario. cbn [String_of].
  destruct (faker_string_uuid (fk fx)) as [barrelId st]. cbn [fst snd] in *.
  pose proof (generated_measurement_conforms barrelId st Huuid) as Hconforms.
  revert Hconforms. generalize (prepareMeasurementObject barrelId st).1.
  intros measurement Hconforms.
  split; [exact Huuid|]. split; [exact Hconforms|].
  split; [|rewrite <- !app_assoc; reflexivity].
  read_block.
  split; intros (Hstatus & body & Hjson & H); (split; [exact Hstatus|]); exists body;
    (split; [exact Hjson|]).
  - tauto.
  - assert (truthy (field_of "title" body) = true) as Htitle by (rewrite H; reflexivity).
    pose proof (field_of_truthy _ _ Htitle) as Hbody.
    pose proof (truthy_not_nullish _ Hbody). tauto.
Qed.

(** X10: 'Input will be sanitized' passes exactly when the service answers
    201 with a valid barrel whose three tags are the strings sent, character
    for character: what the scenario asks is that the input is kept as it is,
    not that it is altered. *)
Theorem X10_input_kept_verbatim (fx : @Fixtures World) :
  let data :=
    object [("qr", VStr "'; DROP TABLE barrels;--");
            ("nfc", VStr "<script>alert('xss')</script>");
            ("rfid", VStr "&#x53;ELECT * FROM information_schema.tables")] in
  let response := response_to_post serve "/barrels" data fx in
  (test_Input_will_be_sanitized serve fx).1 = Returns tt <->
  status response = 201%Z /\
  exists body, valid_response barrelObject response body /\ echoes_tags body data.
Proof.
  cbv zeta.
  unfold test_Input_will_be_sanitized, response_to_post, post_request, barrelsEndpoint,
    echoes_tags.
  cbv zeta. run_scenario.
  unfold BarrelHelper.checkBarrelResponseAndReturnBody.
  read_block. rewrite !field_of_object, !nullish_object. eval_fields. read_block.
  split; intros (Hstatus & body & Hvalid & H); (split; [exact Hstatus|]); exists body;
    destruct (valid_barrel_body _ _ Hvalid) as [Hobject _]; tauto.
Qed.

(** X11: 'Get created measurement' asserts no status code. It passes exactly
    when the answer to the create parses as JSON other than null, and the
    answer to the fetch of /measurements/ followed by the id of that body is
    a valid measurement with that same id, the barrelId sent and the weight
    and dirtLevel sent. *)
Theorem X11_get_created_measurement (barrelId : string) (fx : @Fixtures World) :
  let measurement := (prepareMeasurementObject barrelId (fk fx)).1 in
  let created := serve (post_request "/measurements" measurement) (world fx) in
  (test_Get_created_measurement serve number_to_string barrelId fx).1 = Returns tt <->
  exists createdBody,
    body_json created.1 = Some createdBody /\
    nullish createdBody = false /\
    let address :=
      "/measurements/" +:+ String_of number_to_string (field_of "id" createdBody) in
    let fetched := (serve (bare_request GET address) created.2).1 in
    exists body,
      valid_response measurementObject fetched body /\
      field_of "id" body = field_of "id" createdBody /\
      field_of "barrelId" body = VStr barrelId /\
      field_of "weight" body = field_of "weight" measurement /\
      field_of "dirtLevel" body = field_of "dirtLevel" measurement.
Proof.
  cbv zeta.
  unfold test_Get_created_measurement, bare_request, post_request, measurementsEndpoint,
    request_get.
  destruct (prepareMeasurementObject_shape barrelId (fk fx)) as (k1 & k2 & st' & Hshape & _).
  run_scenario_with Hshape. unfold json at 1.
  destruct (body_json _) as [createdBody|];
    [|split; [discriminate | intros (? & ? & _); discriminate]].
  run_scenario. unfold member at 1.
  destruct (nullish createdBody) eqn:Hnullish.
  { split; [discriminate | intros (? & [= <-] & ? & _); congruence]. }
  run_scenario.
  change ("/measurements" +:+ "/" +:+ String_of number_to_string (field_of "id" createdBody))
    with ("/measurements/" +:+ String_of number_to_string (field_of "id" createdBody)).
  unfold MeasurementHelper.checkMeasurementResponseAndReturnBody.
  read_block. rewrite !field_of_object, !nullish_object. eval_fields. read_block.
  setoid_rewrite toBe_returns.
  split.
  - intros (body & Hvalid & H). exists createdBody. split; [reflexivity|].
    split; [exact Hnullish|]. exists body.
    destruct (valid_measurement_body _ _ Hvalid) as (Hobject & _ & _).
    pose proof (same_value_eq (field_of "id" body) (field_of "id" createdBody)). tauto.
  - intros (createdBody' & [= <-] & _ & body & Hvalid & Hid & H). exists body.
    destruct (valid_measurement_body _ _ Hvalid) as (Hobject & _ & _).
    assert (same_value (field_of "id" body) (field_of "id" createdBody) = true).
    { apply same_value_id; [|exact Hid].
      destruct Hvalid as (_ & _ & _ & Hschema).
      apply measurementObject_accepts in Hschema. tauto. }
    rewrite Hnullish. tauto.
Qed.

(** X12: each 'Minimal ... lenght' scenario sends one request, the generated
    barrel with the one tag replaced by 'T' and the other two as generated; the
    payload conforms to barrelObject, and the scenario passes exactly when the
    answer has status 201. *)
Theorem X12_minimal_length_scenarios (fx : @Fixtures World) :
  let barrel := (prepareBarrelObject (fk fx)).1 in
  let sent key := with_field key (VStr "T") barrel in
  (z.safeParse_success barrelObject (sent "qr") = true /\
   field_of "rfid" (sent "qr") = field_of "rfid" barrel /\
   field_of "nfc" (sent "qr") = field_of "nfc" barrel /\
   asks_only_status serve (test_Create_valid_barrel_Minimal_Qr_lenght serve)
     (post_request "/barrels" (sent "qr")) 201 fx) /\
  (z.safeParse_success barrelObject (sent "rfid") = true /\
   field_of "qr" (sent "rfid") = field_of "qr" barrel /\
   field_of "nfc" (sent "rfid") = field_of "nfc" barrel /\
   asks_only_status serve (test_Create_valid_barrel_Minimal_Rfid_lenght serve)
     (post_request "/barrels" (sent "rfid")) 201 fx) /\
  (z.safeParse_success barrelObject (sent "nfc") = true /\
   field_of "qr" (sent "nfc") = field_of "qr" barrel /\
   field_of "rfid" (sent "nfc") = field_of "rfid" barrel /\
   asks_only_status serve (test_Create_valid_barrel_Minimal_Nfc_lenght serve)
     (post_request "/barrels" (sent "nfc")) 201 fx).
Proof.
  cbv zeta.
  unfold test_Create_valid_barrel_Minimal_Qr_lenght,
    test_Create_valid_barrel_Minimal_Rfid_lenght,
    test_Create_valid_barrel_Minimal_Nfc_lenght, asks_only_status, post_request,
    barrelsEndpoint, z.safeParse_success, barrelObject.
  destruct (prepareBarrelObject_shape (fk fx))
    as (qr & rfid & nfc & Hshape & Hqr & Hrfid & Hnfc & _).
  run_scenario_with Hshape.
  rewrite !with_field_object, !schema_of_object, !field_of_object. cbn [app]. eval_fields.
  rewrite (tag_accepted _ _ Hqr), (tag_accepted _ _ Hrfid), (tag_accepted _ _ Hnfc).
  cbn [andb z.optional z.min z.string Nat.leb String.length].
  repeat match goal with
         | |- _ /\ _ => split
         | |- _ <-> _ => apply statusToBe_returns
         | |- _ = _ => reflexivity
         end.
Qed.

(** X13: each of the four 'Method not allowed' scenarios sends one request,
    a PUT or a PATCH to /barrels or to /barrels/ followed by the id it gave
    the barrel; the data is the generated barrel with that id, a UUID from
    faker, and conforms to barrelObject; the scenario passes exactly when the
    answer has status 405. *)
Theorem X13_method_not_allowed_scenarios (fx : @Fixtures World) :
  let uuid := (faker_string_uuid (after_barrel (fk fx))).1 in
  let barrelData := with_field "id" (VStr uuid) (prepareBarrelObject (fk fx)).1 in
  let sends test m address :=
    asks_only_status serve test {| method := m; url := address; data := barrelData |} 405 fx in
  z.uuid_regex uuid = true /\
  z.safeParse_success barrelObject barrelData = true /\
  sends (test_Put_on_base_endpoint serve) PUT "/barrels" /\
  sends (test_Put_with_id serve number_to_string) PUT ("/barrels/" +:+ uuid) /\
  sends (test_Patch_on_base_endpoint serve) PATCH "/barrels" /\
  sends (test_Patch_with_id serve number_to_string) PATCH ("/barrels/" +:+ uuid).
Proof.
  cbv zeta. pose proof (faker_uuid_format (after_barrel (fk fx))) as Huuid.
  unfold test_Put_on_base_endpoint, test_Put_with_id, test_Patch_on_base_endpoint,
    test_Patch_with_id, asks_only_status, barrelsEndpoint, z.safeParse_success, barrelObject.
  destruct (prepareBarrelObject_shape (fk fx))
    as (qr & rfid & nfc & Hshape & Hqr & Hrfid & Hnfc & _).
  run_scenario_with Hshape.
  revert Huuid. generalize (faker_string_uuid (after_barrel (fk fx))).1. intros uuid Huuid.
  rewrite !with_field_object, !schema_of_object. cbn [app]. eval_fields.
  rewrite (tag_accepted _ _ Hqr), (tag_accepted _ _ Hrfid), (tag_accepted _ _ Hnfc).
  cbn [andb z.optional z.string String_of].
  change ("/barrels" +:+ "/" +:+ uuid) with ("/barrels/" +:+ uuid).
  split; [exact Huuid|].
  repeat match goal with
         | |- _ /\ _ => split
         | |- _ <-> _ => apply statusToBe_returns
         | |- _ = _ => reflexivity
         end.
Qed.

End ScenarioCharacterisations.

(** ** Properties that nothing reads *)

Lemma field_of_with_field (k k' : string) (x v : value) :
  k <> k' -> field_of k' (with_field k x v) = field_of k' v.
Proof.
  intros Hne. destruct v as [| | | | | |o]; try reflexivity.
  cbn [with_field field_of]. rewrite lookup_insert_ne by exact Hne. reflexivity.
Qed.

Lemma truthy_with_field (k : string) (x v : value) : truthy (with_field k x v) = truthy v.
Proof. destruct v; reflexivity. Qed.

Lemma nullish_with_field (k : string) (x v : value) : nullish (with_field k x v) = nullish v.
Proof. destruct v; reflexivity. Qed.

Lemma schema_with_field (shape : list (string * z.ZodType)) (k : string) (x v : value) :
  k ∉ shape.*1 ->
  z.object shape (with_field k x v) = z.object shape v.
Proof.
  intros Hk. destruct v as [| | | | | |o]; try reflexivity.
  cbn [with_field z.object].
  induction shape as [|[k' schema] shape IH]; [reflexivity|].
  cbn [fmap list_fmap fst] in Hk. apply not_elem_of_cons in Hk as [Hne Hk].
  cbn [forallb fst snd]. rewrite lookup_insert_ne by exact Hne.
  rewrite (IH Hk). reflexivity.
Qed.

(** X9: a property that neither schema names and the envelope check does not
    read (meta in a barrel, or status, type and traceId in an error body)
    changes no verdict: both schemas and both checkErrorResponse give on the
    value with the property set what they give on the value itself. *)
Theorem X9_unread_properties (k : string) (x v : value) :
  k ∉ ["id"; "qr"; "rfid"; "nfc"; "barrelId"; "dirtLevel"; "weight"; "title"; "errors"] ->
  z.safeParse_success barrelObject (with_field k x v) = z.safeParse_success barrelObject v /\
  z.safeParse_success measurementObject (with_field k x v) =
    z.safeParse_success measurementObject v /\
  BarrelHelper.checkErrorResponse (with_field k x v) = BarrelHelper.checkErrorResponse v /\
  MeasurementHelper.checkErrorResponse (with_field k x v) =
    MeasurementHelper.checkErrorResponse v.
Proof.
  intros Hk. rewrite !not_elem_of_cons in Hk.
  destruct Hk as (Hid & Hqr & Hrfid & Hnfc & HbarrelId & HdirtLevel & Hweight & Htitle &
                  Herrors & _).
  unfold z.safeParse_success, barrelObject, measurementObject.
  split; [apply schema_with_field; cbn [fmap list_fmap fst];
          rewrite !not_elem_of_cons; pose proof (not_elem_of_nil k); tauto|].
  split; [apply schema_with_field; cbn [fmap list_fmap fst];
          rewrite !not_elem_of_cons; pose proof (not_elem_of_nil k); tauto|].
  unfold BarrelHelper.checkErrorResponse, MeasurementHelper.checkErrorResponse, member,
    expect.toBeTruthy.
  rewrite truthy_with_field, nullish_with_field,
    (field_of_with_field k "title" x v Htitle), (field_of_with_field k "errors" x v Herrors).
  split; reflexivity.
Qed.

(** The theorem at an error body that carries its status code. *)
Lemma X9_unread_properties_witness :
  BarrelHelper.checkErrorResponse
    (with_field "status" (VNum 400%float)
       (object [("title", VStr "One or more validation errors occurred.");
                ("errors", object [("Qr", VArr [VStr "The Qr field is required."])])])) =
  BarrelHelper.checkErrorResponse
    (object [("title", VStr "One or more validation errors occurred.");
             ("errors", object [("Qr", VArr [VStr "The Qr field is required."])])]).
Proof.
  apply (X9_unread_properties "status" (VNum 400%float)).
  rewrite !not_elem_of_cons.
  repeat (split; [discriminate|]). apply not_elem_of_nil.
Defined.

(** ** The scenarios on required fields *)

Lemma refusal_block_returns (check : value -> outcome unit) (key message : string)
    (response : APIResponse) :
  (forall body, check body = Returns tt <-> required_error key message body) ->
  (expect.statusToBe (status response) 400 ;;
   body ← json response;
   check body) = Returns tt
  <-> answered_with_error response key message.
Proof.
  intros Hcheck. unfold answered_with_error.
  rewrite seq_returns, statusToBe_returns, json_bind_returns.
  setoid_rewrite Hcheck. reflexivity.
Qed.

Section RequiredFieldScenarios.

Context {World : Type}.
Variable serve : Request -> World -> APIResponse * World.

Lemma refused_post (check : value -> outcome unit) (address : string) (payload : value)
    (key message : string) (fx : @Fixtures World) :
  (forall body, check body = Returns tt <-> required_error key message body) ->
  passes_when_refused serve
    (@mbind _ (@test_bind World) _ _
       (fun response =>
          attempt (expect.statusToBe (status response) 400 ;;
                   body ← json response;
                   check body))
       (request_post serve address payload))
    address payload key message fx.
Proof.
  intros Hcheck. unfold passes_when_refused.
  rewrite post_then_assert. apply refusal_block_returns. exact Hcheck.
Qed.

Lemma refused_post_of_barrel (check : value -> outcome unit) (barrel : value)
    (payload : value -> value) (key message : string) (fx : @Fixtures World) :
  (forall body, check body = Returns tt <-> required_error key message body) ->
  (@mbind _ (@test_bind World) _ _
     (fun barrel_id =>
        @mbind _ (@test_bind World) _ _
          (fun response =>
             attempt (expect.statusToBe (status response) 400 ;;
                      body ← json response;
                      check body))
          (request_post serve "/measurements" (payload barrel_id)))
     (attempt (member "id" barrel)) fx).1 = Returns tt <->
  nullish barrel = false /\
  answered_with_error
    (response_to_post serve "/measurements" (payload (field_of "id" barrel)) fx) key message.
Proof.
  intros Hcheck.
  unfold mbind at 1. unfold test_bind at 1. unfold attempt at 1. unfold member at 1.
  destruct (nullish barrel).
  - split; [discriminate | intros [? _]; discriminate].
  - rewrite post_then_assert, (refusal_block_returns check key message _ Hcheck). tauto.
Qed.

(** X14: each scenario on a required field, with the field left out or set
    to undefined, posts its literal and passes exactly when the answer has
    status 400 and an error body with the fixed title, an errors mapping and
    under the field's key the fixed message as first entry (for dirtLevel the
    key DirtLevel with the message 'The Dirtlevel field is required.'); the
    four scenarios that read the id of the barrel of beforeAll throw when that
    barrel is null or undefined. *)
Theorem X14_required_field_scenarios (barrel : value) (fx : @Fixtures World) :
  let filled := VStr "filled" in
  let ten := VNum 10%float in
  let id := field_of "id" barrel in
  passes_when_refused serve (test_QR_attribute_is_missing serve) "/barrels"
    (object [("rfid", filled); ("nfc", filled)]) "Qr" "The Qr field is required." fx /\
  passes_when_refused serve (test_QR_attribute_is_undefined serve) "/barrels"
    (object [("qr", VUndefined); ("rfid", filled); ("nfc", filled)])
    "Qr" "The Qr field is required." fx /\
  passes_when_refused serve (test_RFID_attribute_is_missing serve) "/barrels"
    (object [("qr", filled); ("nfc", filled)]) "Rfid" "The Rfid field is required." fx /\
  passes_when_refused serve (test_RFID_attribute_is_undefined serve) "/barrels"
    (object [("qr", filled); ("rfid", VUndefined); ("nfc", filled)])
    "Rfid" "The Rfid field is required." fx /\
  passes_when_refused serve (test_NFC_attribute_is_missing serve) "/barrels"
    (object [("qr", filled); ("rfid", filled)]) "Nfc" "The Nfc field is required." fx /\
  passes_when_refused serve (test_NFC_attribute_is_undefined serve) "/barrels"
    (object [("qr", filled); ("rfid", filled); ("nfc", VUndefined)])
    "Nfc" "The Nfc field is required." fx /\
  passes_when_refused serve (test_Barrel_Id_is_missing serve) "/measurements"
    (object [("dirtLevel", ten); ("weight", ten)])
    "BarrelId" "The BarrelId field is required." fx /\
  passes_when_refused serve (test_Barrel_Id_is_undefined serve) "/measurements"
    (object [("barrelId", VUndefined); ("dirtLevel", ten); ("weight", ten)])
    "BarrelId" "The BarrelId field is required." fx /\
  ((test_Dirt_level_is_missing serve barrel fx).1 = Returns tt <->
   nullish barrel = false /\
   answered_with_error
     (response_to_post serve "/measurements"
        (object [("barrelId", id); ("weight", ten)]) fx)
     "DirtLevel" "The Dirtlevel field is required.") /\
  ((test_Dirt_level_is_undefined serve barrel fx).1 = Returns tt <->
   nullish barrel = false /\
   answered_with_error
     (response_to_post serve "/measurements"
        (object [("barrelId", id); ("dirtLevel", VUndefined); ("weight", ten)]) fx)
     "DirtLevel" "The Dirtlevel field is required.") /\
  ((test_Weight_is_missing serve barrel fx).1 = Returns tt <->
   nullish barrel = false /\
   answered_with_error
     (response_to_post serve "/measurements"
        (object [("barrelId", id); ("dirtLevel", ten)]) fx)
     "Weight" "The Weight field is required.") /\
  ((test_Weight_is_undefined serve barrel fx).1 = Returns tt <->
   nullish barrel = false /\
   answered_with_error
     (response_to_post serve "/measurements"
        (object [("barrelId", id); ("dirtLevel", ten); ("weight", VUndefined)]) fx)
     "Weight" "The Weight field is required.").
Proof.
  cbv zeta.
  pose proof (required_by_optional_index "Qr" "The Qr field is required.") as Hqr.
  pose proof (required_by_optional_index "Rfid" "The Rfid field is required.") as Hrfid.
  pose proof (required_by_optional_index "Nfc" "The Nfc field is required.") as Hnfc.
  pose proof (required_by_index "BarrelId" "The BarrelId field is required.") as HbarrelId.
  pose proof (required_by_index "DirtLevel" "The Dirtlevel field is required.") as HdirtLevel.
  pose proof (required_by_index "Weight" "The Weight field is required.") as Hweight.
  split; [exact (refused_post BarrelHelper.checkQrRequiredErrorResponse _ _ _ _ fx Hqr)|].
  split; [exact (refused_post BarrelHelper.checkQrRequiredErrorResponse _ _ _ _ fx Hqr)|].
  split; [exact (refused_post BarrelHelper.checkRfidRequiredErrorResponse _ _ _ _ fx Hrfid)|].
  split; [exact (refused_post BarrelHelper.checkRfidRequiredErrorResponse _ _ _ _ fx Hrfid)|].
  split; [exact (refused_post BarrelHelper.checkNfcRequiredErrorResponse _ _ _ _ fx Hnfc)|].
  split; [exact (refused_post BarrelHelper.checkNfcRequiredErrorResponse _ _ _ _ fx Hnfc)|].
  split; [exact (refused_post MeasurementHelper.checkBarrelIdRequiredErrorResponse
                   _ _ _ _ fx HbarrelId)|].
  split; [exact (refused_post MeasurementHelper.checkBarrelIdRequiredErrorResponse
                   _ _ _ _ fx HbarrelId)|].
  split; [exact (refused_post_of_barrel MeasurementHelper.checkDirtLevelRequiredErrorResponse
                   barrel (fun barrel_id => object [("barrelId", barrel_id);
                                                    ("weight", VNum 10%float)])
                   _ _ fx HdirtLevel)|].
  split; [exact (refused_post_of_barrel MeasurementHelper.checkDirtLevelRequiredErrorResponse
                   barrel (fun barrel_id => object [("barrelId", barrel_id);
                                                    ("dirtLevel", VUndefined);
                                                    ("weight", VNum 10%float)])
                   _ _ fx HdirtLevel)|].
  split; [exact (refused_post_of_barrel MeasurementHelper.checkWeightRequiredErrorResponse
                   barrel (fun barrel_id => object [("barrelId", barrel_id);
                                                    ("dirtLevel", VNum 10%float)])
                   _ _ fx Hweight)|].
  exact (refused_post_of_barrel MeasurementHelper.checkWeightRequiredErrorResponse
           barrel (fun barrel_id => object [("barrelId", barrel_id);
                                            ("dirtLevel", VNum 10%float);
                                            ("weight", VUndefined)])
           _ _ fx Hweight).
Qed.

End RequiredFieldScenarios.

Section OnTheWire.

Context {World : Type}.
Variable handle : Request -> World -> APIResponse * World.

#[local] Existing Instance test_ret.
#[local] Existing Instance test_bind.

Lemma same_post (l1 l2 : list (string * value)) (endpoint : string)
    (block : APIResponse -> outcome unit) (fx : @Fixtures World) :
  (forall k, sent_under k l1 = sent_under k l2) ->
  same_run
    (response ← request_post (over_the_wire handle) endpoint (object l1);
     attempt (block response))
    (response ← request_post (over_the_wire handle) endpoint (object l2);
     attempt (block response))
    fx.
Proof.
  intros H. unfold same_run. rewrite !run_bind, !run_post, !run_send.
  unfold over_the_wire. cbn [method url data].
  rewrite (JSON_body_object_ext l1 l2 H). split; reflexivity.
Qed.

(** X6: for a service that sees of a request only what travels, each
    '... is undefined' scenario of the two files ends as the '... is missing'
    scenario beside it does: same verdict, same state of the service. A
    property set to undefined in the literal is not in the JSON body. *)
Theorem X6_undefined_is_missing_on_the_wire (barrel : value) (fx : @Fixtures World) :
  let serve := over_the_wire handle in
  same_run (test_QR_attribute_is_undefined serve) (test_QR_attribute_is_missing serve) fx /\
  same_run (test_RFID_attribute_is_undefined serve) (test_RFID_attribute_is_missing serve) fx /\
  same_run (test_NFC_attribute_is_undefined serve) (test_NFC_attribute_is_missing serve) fx /\
  same_run (test_Barrel_Id_is_undefined serve) (test_Barrel_Id_is_missing serve) fx /\
  same_run (test_Dirt_level_is_undefined serve barrel)
           (test_Dirt_level_is_missing serve barrel) fx /\
  same_run (test_Weight_is_undefined serve barrel)
           (test_Weight_is_missing serve barrel) fx.
Proof.
  cbv zeta.
  split; [apply same_post; intros k; by_key k|].
  split; [apply same_post; intros k; by_key k|].
  split; [apply same_post; intros k; by_key k|].
  split; [apply same_post; intros k; by_key k|].
  split.
  - unfold test_Dirt_level_is_undefined, test_Dirt_level_is_missing, same_run.
    rewrite !(run_bind _ (attempt _)), !run_attempt.
    destruct (member "id" barrel) as [barrel_id|e]; [|split; reflexivity].
    apply same_post. intros k. by_key k.
  - unfold test_Weight_is_undefined, test_Weight_is_missing, same_run.
    rewrite !(run_bind _ (attempt _)), !run_attempt.
    destruct (member "id" barrel) as [barrel_id|e]; [|split; reflexivity].
    apply same_post. intros k. by_key k.
Qed.

End OnTheWire.
